(** * TimeTagger: the RFID project-time tracker of [arduino.cpp]

    A shallow embedding of the firmware's [loop()] function and of the
    global variables it works on, followed by the properties of the
    tracker's state machine: mutual exclusion of running projects, time
    accounting, compaction on deletion, registration and its capacity
    limit, and the handling of the host line and of the display freeze.

    Conventions of the embedding.
    - The five parallel arrays of the sketch are five lists of length
      [MAX_PROJECTS]; [a[i] = v] is [<[i:=v]> a] and a read [a[i]] is
      [a !!! i].  Every index the code uses is below [MAX_PROJECTS] in the
      states the firmware can reach ([wf_preserved]).
    - [unsigned long] is 32 bits wide on the ATmega328P: times are integers
      of [Z] reduced modulo [2^32] by [uadd] and [usub].
    - [projectCount] and the loop indices are C [int]s that stay within
      [0 .. MAX_PROJECTS] ([wf_preserved]); they are natural numbers here.
    - One pass through [loop()] reads its environment once: the contents of
      the serial buffer, the card in the reader's field, and the clock.  The
      calls of [millis()] inside the card-handling block are not separated by
      a [delay] and are one reading, [now]; the reading of the display block
      at the end of [loop()] comes after [delay(1000)] and is a second one,
      [nowDisplay].
    - What the firmware does to the outside (serial lines, LCD commands,
      blocking delays, halting the card) is returned as a list of [effect]s. *)

From stdpp Require Import base list strings pretty.
From Stdlib Require Import ZArith Lia Ascii.
From Stdlib.Strings Require Import Byte.

Local Open Scope string_scope.
Local Open Scope list_scope.
Local Open Scope Z_scope.

(** ** Machine arithmetic *)

Definition wrap32 (z : Z) : Z := z mod 2 ^ 32.

(** [a + b] and [a - b] on [unsigned long]. *)
Definition uadd (a b : Z) : Z := wrap32 (a + b).
Definition usub (a b : Z) : Z := wrap32 (a - b).

(** ** Strings of the Arduino core used by the sketch *)

(** [isspace] of the C locale. *)
Definition isspace (c : ascii) : bool :=
  let n := N_of_ascii c in
  (n =? 32)%N || ((9 <=? n)%N && (n <=? 13)%N).

Fixpoint trim_left (s : string) : string :=
  match s with
  | EmptyString => EmptyString
  | String c r => if isspace c then trim_left r else s
  end.

Fixpoint trim_right (s : string) : string :=
  match s with
  | EmptyString => EmptyString
  | String c r =>
      match trim_right r with
      | EmptyString => if isspace c then EmptyString else String c EmptyString
      | r' => String c r'
      end
  end.

(** [String::trim()]: drops the white space at both ends. *)
Definition trim (s : string) : string := trim_right (trim_left s).

(** [Stream::readStringUntil(t)]: the characters before the first [t]. *)
Fixpoint readStringUntil (t : ascii) (s : string) : string :=
  match s with
  | EmptyString => EmptyString
  | String c r => if Ascii.eqb c t then EmptyString else String c (readStringUntil t r)
  end.

Definition newline : ascii := ascii_of_N 10.

(** [String(v)] for an integer [v]: its decimal digits. *)
Definition String_dec (v : Z) : string := pretty v.

Definition hex_digit (n : N) : ascii :=
  if (n <? 10)%N then ascii_of_N (48 + n) else ascii_of_N (87 + n).

(** [String(b, HEX)] for a byte: lower-case digits, no leading zero. *)
Definition String_hex (b : byte) : string :=
  let n := Byte.to_N b in
  if (n <? 16)%N then String (hex_digit n) EmptyString
  else String (hex_digit (n / 16)) (String (hex_digit (n mod 16)) EmptyString).

(** The loop of lines 140-145 over [mfrc522.uid.uidByte]. *)
Fixpoint format_uid (uid : list byte) : string :=
  match uid with
  | [] => ""
  | b :: rest =>
      (if (Byte.to_N b <? 16)%N then "0" else "") +:+ String_hex b +:+
      (match rest with [] => "" | _ => ":" end) +:+ format_uid rest
  end.

(** ** Global variables *)

Definition MAX_PROJECTS : nat := 10.
Definition ADMIN_UID : string := "74:8a:71:16".

Record State := mkState {
  knownUIDs : list string;
  projectNames : list string;
  projectActive : list bool;
  projectStartTime : list Z;
  projectAccumulatedTime : list Z;
  projectCount : nat;
  pendingDeletion : bool;
  waitingForProjectName : bool;
  newUID : string;
  displayFreezeUntil : Z
}.

(** The state after [setup()]: zero-initialised globals. *)
Definition boot : State :=
  {| knownUIDs := replicate MAX_PROJECTS "";
     projectNames := replicate MAX_PROJECTS "";
     projectActive := replicate MAX_PROJECTS false;
     projectStartTime := replicate MAX_PROJECTS 0;
     projectAccumulatedTime := replicate MAX_PROJECTS 0;
     projectCount := 0;
     pendingDeletion := false;
     waitingForProjectName := false;
     newUID := "";
     displayFreezeUntil := 0 |}.

Definition set_knownUIDs (v : list string) (s : State) : State :=
  mkState v (projectNames s) (projectActive s) (projectStartTime s)
    (projectAccumulatedTime s) (projectCount s) (pendingDeletion s)
    (waitingForProjectName s) (newUID s) (displayFreezeUntil s).
Definition set_projectNames (v : list string) (s : State) : State :=
  mkState (knownUIDs s) v (projectActive s) (projectStartTime s)
    (projectAccumulatedTime s) (projectCount s) (pendingDeletion s)
    (waitingForProjectName s) (newUID s) (displayFreezeUntil s).
Definition set_projectActive (v : list bool) (s : State) : State :=
  mkState (knownUIDs s) (projectNames s) v (projectStartTime s)
    (projectAccumulatedTime s) (projectCount s) (pendingDeletion s)
    (waitingForProjectName s) (newUID s) (displayFreezeUntil s).
Definition set_projectStartTime (v : list Z) (s : State) : State :=
  mkState (knownUIDs s) (projectNames s) (projectActive s) v
    (projectAccumulatedTime s) (projectCount s) (pendingDeletion s)
    (waitingForProjectName s) (newUID s) (displayFreezeUntil s).
Definition set_projectAccumulatedTime (v : list Z) (s : State) : State :=
  mkState (knownUIDs s) (projectNames s) (projectActive s) (projectStartTime s)
    v (projectCount s) (pendingDeletion s)
    (waitingForProjectName s) (newUID s) (displayFreezeUntil s).
Definition set_projectCount (v : nat) (s : State) : State :=
  mkState (knownUIDs s) (projectNames s) (projectActive s) (projectStartTime s)
    (projectAccumulatedTime s) v (pendingDeletion s)
    (waitingForProjectName s) (newUID s) (displayFreezeUntil s).
Definition set_pendingDeletion (v : bool) (s : State) : State :=
  mkState (knownUIDs s) (projectNames s) (projectActive s) (projectStartTime s)
    (projectAccumulatedTime s) (projectCount s) v
    (waitingForProjectName s) (newUID s) (displayFreezeUntil s).
Definition set_waitingForProjectName (v : bool) (s : State) : State :=
  mkState (knownUIDs s) (projectNames s) (projectActive s) (projectStartTime s)
    (projectAccumulatedTime s) (projectCount s) (pendingDeletion s)
    v (newUID s) (displayFreezeUntil s).
Definition set_newUID (v : string) (s : State) : State :=
  mkState (knownUIDs s) (projectNames s) (projectActive s) (projectStartTime s)
    (projectAccumulatedTime s) (projectCount s) (pendingDeletion s)
    (waitingForProjectName s) v (displayFreezeUntil s).
Definition set_displayFreezeUntil (v : Z) (s : State) : State :=
  mkState (knownUIDs s) (projectNames s) (projectActive s) (projectStartTime s)
    (projectAccumulatedTime s) (projectCount s) (pendingDeletion s)
    (waitingForProjectName s) (newUID s) v.

(** ** Effects and inputs of one pass through [loop()] *)

Inductive effect :=
  | SerialPrintln (line : string)
  | LcdClear
  | LcdSetCursor (col row : nat)
  | LcdPrint (text : string)
  | Delay (ms : Z)
  | PiccHaltA.

Record Input := mkInput {
  (** [None] when [Serial.available()] is 0, else the characters that
      [readStringUntil] finds in the stream *)
  serialBuf : option string;
  (** the UID bytes when a new card is present and could be read *)
  card : option (list byte);
  (** [millis()] in the card-handling block *)
  now : Z;
  (** [millis()] in the display block *)
  nowDisplay : Z
}.

(** [for (k = lo; k < lo + n; k++) s = body k s]. *)
Fixpoint for_range {St : Type} (lo n : nat) (body : nat → St → St) (s : St) : St :=
  match n with
  | O => s
  | S n' => for_range (S lo) n' body (body lo s)
  end.

(** [for (k = lo; k < hi; k++)]. *)
Definition for_loop {St : Type} (lo hi : nat) (body : nat → St → St) (s : St) : St :=
  for_range lo (hi - lo) body s.

(** The two searches of the sketch (lines 172-173 and 227-233) leave at the
    first index [i < projectCount] with [knownUIDs[i] == uidString]. *)
Fixpoint find_from (uids : list string) (uid : string) (i n : nat) : option nat :=
  match n with
  | O => None
  | S n' => if String.eqb (uids !!! i) uid then Some i
            else find_from uids uid (S i) n'
  end.

Definition find (s : State) (uid : string) : option nat :=
  find_from (knownUIDs s) uid 0 (projectCount s).

(** ** The serial branch (lines 99-135) *)

Definition lcd_prompt : list effect := [LcdClear; LcdPrint "Projekt?"].

Definition host_line (s : State) (raw : string) : State * list effect :=
  let name := trim (readStringUntil newline raw) in
  let n := projectCount s in
  if (n <? MAX_PROJECTS)%nat then
    let s1 := set_knownUIDs (<[n := newUID s]> (knownUIDs s)) s in
    let s2 := set_projectNames (<[n := name]> (projectNames s1)) s1 in
    let s3 := set_projectActive (<[n := false]> (projectActive s2)) s2 in
    let s4 := set_projectStartTime (<[n := 0]> (projectStartTime s3)) s3 in
    let s5 := set_projectAccumulatedTime (<[n := 0]> (projectAccumulatedTime s4)) s4 in
    let s6 := set_projectCount (S n) s5 in
    (set_waitingForProjectName false s6,
     [SerialPrintln ("Projekt hinzugefügt: " +:+ name +:+ " (" +:+ newUID s +:+ ")");
      LcdClear; LcdSetCursor 0 0; LcdPrint "Projekt hinzugefuegt:";
      LcdSetCursor 0 1; LcdPrint name; Delay 3000] ++ lcd_prompt)
  else
    (set_waitingForProjectName false s,
     [SerialPrintln "Max. Anzahl erreicht!"; LcdClear; LcdPrint "Max erreicht!";
      Delay 2000] ++ lcd_prompt).

(** ** The admin card (lines 150-168) *)

Definition admin_card (s : State) : State * list effect :=
  let s1 := set_pendingDeletion (negb (pendingDeletion s)) s in
  (s1,
   [LcdClear] ++
   (if pendingDeletion s1
    then [LcdPrint "Loeschmodus an"; LcdSetCursor 0 1; LcdPrint "Projekt scannen"]
    else [LcdPrint "Abbruch"; LcdSetCursor 0 1; LcdPrint "Zurueck..."]) ++
   [Delay 3000] ++ lcd_prompt ++ [PiccHaltA; Delay 1000]).

(** ** Deleting a project (lines 171-223) *)

(** Lines 175-179: the accumulated time plus the running session. *)
Definition total_at (s : State) (i : nat) (t : Z) : Z :=
  if (projectActive s !!! i : bool)
  then uadd (projectAccumulatedTime s !!! i) (usub t (projectStartTime s !!! i))
  else projectAccumulatedTime s !!! i.

Definition seconds_of (total : Z) : Z := (total / 1000) mod 60.
Definition minutes_of (total : Z) : Z := (total / 60000) mod 60.
Definition hours_of (total : Z) : Z := total / 3600000.

(** The body of the compaction loop (lines 198-202). *)
Definition shift_body (j : nat) (s : State) : State :=
  let s1 := set_knownUIDs (<[j := knownUIDs s !!! S j]> (knownUIDs s)) s in
  let s2 := set_projectNames (<[j := projectNames s1 !!! S j]> (projectNames s1)) s1 in
  let s3 := set_projectActive (<[j := projectActive s2 !!! S j]> (projectActive s2)) s2 in
  let s4 := set_projectStartTime (<[j := projectStartTime s3 !!! S j]> (projectStartTime s3)) s3 in
  set_projectAccumulatedTime
    (<[j := projectAccumulatedTime s4 !!! S j]> (projectAccumulatedTime s4)) s4.

Definition deleted_line (name : string) (total : Z) : string :=
  "Projekt geloescht: " +:+ name +:+ " (" +:+ String_dec (hours_of total) +:+ "h "
    +:+ String_dec (minutes_of total) +:+ "m " +:+ String_dec (seconds_of total) +:+ "s)".

Definition delete_project (s : State) (i : nat) (t : Z) : State * list effect :=
  let total := total_at s i t in
  let s1 := if (projectActive s !!! i : bool)
            then set_projectActive (<[i := false]> (projectActive s)) s else s in
  let name := projectNames s1 !!! i in
  let s2 := for_loop i (projectCount s1 - 1) shift_body s1 in
  let s3 := set_projectCount (projectCount s2 - 1) s2 in
  (set_pendingDeletion false s3,
   [LcdClear; LcdSetCursor 0 0; LcdPrint name; LcdSetCursor 0 1; LcdPrint "geloescht";
    SerialPrintln (deleted_line name total); Delay 3000] ++ lcd_prompt ++
   [PiccHaltA; Delay 1000]).

Definition not_found (s : State) : State * list effect :=
  (set_pendingDeletion false s,
   [LcdClear; LcdPrint "Nicht gefunden"; Delay 2000] ++ lcd_prompt ++
   [PiccHaltA; Delay 1000]).

(** ** Starting and pausing (lines 235-263) *)

(** The body of the loop of lines 242-247. *)
Definition stop_body (t : Z) (i : nat) (s : State) : State :=
  if (projectActive s !!! i : bool) then
    let acc := uadd (projectAccumulatedTime s !!! i) (usub t (projectStartTime s !!! i)) in
    let s1 := set_projectAccumulatedTime (<[i := acc]> (projectAccumulatedTime s)) s in
    set_projectActive (<[i := false]> (projectActive s1)) s1
  else s.

Definition start_project (s : State) (index : nat) (t : Z) : State * list effect :=
  let s1 := for_loop 0 (projectCount s) (stop_body t) s in
  let s2 := set_projectActive (<[index := true]> (projectActive s1)) s1 in
  let s3 := set_projectStartTime (<[index := t]> (projectStartTime s2)) s2 in
  (s3, [LcdSetCursor 0 1; LcdPrint "Gestartet";
        SerialPrintln ("Projekt gestartet: " +:+ projectNames s3 !!! index)]).

Definition pause_project (s : State) (index : nat) (t : Z) : State * list effect :=
  let acc := uadd (projectAccumulatedTime s !!! index)
                  (usub t (projectStartTime s !!! index)) in
  let s1 := set_projectAccumulatedTime (<[index := acc]> (projectAccumulatedTime s)) s in
  let s2 := set_projectActive (<[index := false]> (projectActive s1)) s1 in
  (s2, [LcdSetCursor 0 1; LcdPrint "Pausiert";
        SerialPrintln ("Projekt pausiert: " +:+ projectNames s2 !!! index)]).

Definition known_card (s : State) (index : nat) (t : Z) : State * list effect :=
  let '(s1, out) :=
    if negb (projectActive s !!! index : bool)
    then start_project s index t else pause_project s index t in
  (set_displayFreezeUntil (uadd t 3000) s1,
   [LcdClear; LcdSetCursor 0 0; LcdPrint (projectNames s !!! index)] ++ out).

(** ** An unknown card (lines 264-274) *)

Definition unknown_card (s : State) (uidString : string) : State * list effect :=
  let s1 := set_newUID uidString s in
  (set_waitingForProjectName true s1,
   [SerialPrintln ("Unbekannte UID: " +:+ uidString);
    SerialPrintln "Bitte Projektnamen eingeben und bestätigen:";
    LcdClear; LcdSetCursor 0 0; LcdPrint "Unbekanntes Tag";
    LcdSetCursor 0 1; LcdPrint "-> Name am PC"]).

(** ** The display block (lines 280-313) *)

Definition clearLCDLine (line : nat) : list effect :=
  [LcdSetCursor 0 line; LcdPrint "                "].

(** The loop of lines 282-306 leaves at the first running project. *)
Fixpoint first_active_from (act : list bool) (i n : nat) : option nat :=
  match n with
  | O => None
  | S n' => if (act !!! i : bool) then Some i else first_active_from act (S i) n'
  end.

Definition print_padded (v : Z) (unit : string) : list effect :=
  (if v <? 10 then [LcdPrint "0"] else []) ++ [LcdPrint (String_dec v); LcdPrint unit].

Definition display (s : State) (t : Z) : list effect :=
  if displayFreezeUntil s <? t then
    match first_active_from (projectActive s) 0 (projectCount s) with
    | Some i =>
        let laufzeit := uadd (projectAccumulatedTime s !!! i)
                             (usub t (projectStartTime s !!! i)) in
        [LcdSetCursor 0 0] ++ clearLCDLine 0 ++
        [LcdSetCursor 0 0; LcdPrint (projectNames s !!! i); LcdSetCursor 0 1] ++
        clearLCDLine 1 ++ [LcdSetCursor 0 1] ++
        print_padded (hours_of laufzeit) "h " ++
        print_padded (minutes_of laufzeit) "m " ++
        print_padded (seconds_of laufzeit) "s"
    | None =>
        if negb (waitingForProjectName s) && negb (pendingDeletion s)
        then [LcdSetCursor 0 0] ++ clearLCDLine 0 ++ [LcdSetCursor 0 0; LcdPrint "Projekt?"]
        else []
    end
  else [].

(** ** The card-handling block (lines 138-278) *)

(** The result of the block and whether it left [loop()] by [return]. *)
Definition handle_card (s : State) (uid : list byte) (t : Z) : State * list effect * bool :=
  let uidString := format_uid uid in
  let seen := [SerialPrintln ("RFID erkannt: " +:+ uidString)] in
  if String.eqb uidString ADMIN_UID then
    let '(s1, out) := admin_card s in (s1, seen ++ out, true)
  else if pendingDeletion s then
    match find s uidString with
    | Some i => let '(s1, out) := delete_project s i t in (s1, seen ++ out, true)
    | None => let '(s1, out) := not_found s in (s1, seen ++ out, true)
    end
  else
    let '(s1, out) :=
      match find s uidString with
      | Some index => known_card s index t
      | None => unknown_card s uidString
      end in
    (s1, seen ++ out ++ [PiccHaltA; Delay 1000], false).

(** ** [loop()] *)

Definition loop (s : State) (inp : Input) : State * list effect :=
  match waitingForProjectName s, serialBuf inp with
  | true, Some raw => host_line s raw
  | _, _ =>
      match card inp with
      | Some uid =>
          let '(s1, out, returned) := handle_card s uid (now inp) in
          if returned then (s1, out) else (s1, out ++ display s1 (nowDisplay inp))
      | None => (s, display s (nowDisplay inp))
      end
  end.

Definition step (s : State) (inp : Input) : State := fst (loop s inp).

(** The state after a sequence of passes. *)
Definition run (s : State) (inps : list Input) : State := fold_left step inps s.

(** The states after each pass, in order. *)
Fixpoint trace (s : State) (inps : list Input) : list State :=
  match inps with
  | [] => []
  | inp :: rest => step s inp :: trace (step s inp) rest
  end.

(** ** Tracker mode *)

Inductive TrackerMode :=
  | Idle
  | AwaitingProjectName (pendingTagId : string)
  | DeletionArmed.

(** The mode the two flags encode; no mode when both are set. *)
Definition mode (s : State) : option TrackerMode :=
  match waitingForProjectName s, pendingDeletion s with
  | false, false => Some Idle
  | true, false => Some (AwaitingProjectName (newUID s))
  | false, true => Some DeletionArmed
  | true, true => None
  end.

(** ** The view of one registry entry *)

Record Project := mkProject {
  tagId : string;
  name : string;
  isActive : bool;
  sessionStart : Z;
  accumulatedMs : Z
}.

(** Entry [i] of the five arrays. *)
Definition project_at (s : State) (i : nat) : Project :=
  {| tagId := knownUIDs s !!! i;
     name := projectNames s !!! i;
     isActive := projectActive s !!! i;
     sessionStart := projectStartTime s !!! i;
     accumulatedMs := projectAccumulatedTime s !!! i |}.

(** What lines 244-245 and 256-257 do to an entry. *)
Definition paused (t : Z) (p : Project) : Project :=
  {| tagId := tagId p; name := name p; isActive := false;
     sessionStart := sessionStart p;
     accumulatedMs := uadd (accumulatedMs p) (usub t (sessionStart p)) |}.

(** What lines 249-250 do to an entry. *)
Definition started (t : Z) (p : Project) : Project :=
  {| tagId := tagId p; name := name p; isActive := true;
     sessionStart := t; accumulatedMs := accumulatedMs p |}.

(** What the loop of lines 242-247 does to an entry. *)
Definition stopped (t : Z) (p : Project) : Project :=
  if isActive p then paused t p else p.

(** The total of lines 175-179, which for a running entry is the [laufzeit]
    of line 285: [totalMs] of the specification. *)
Definition totalMs (p : Project) (t : Z) : Z :=
  if isActive p then uadd (accumulatedMs p) (usub t (sessionStart p))
  else accumulatedMs p.

Local Open Scope nat_scope.

(** The registered entries, in order. *)
Definition registry (s : State) : list Project :=
  project_at s <$> seq 0 (projectCount s).

(** ** Well-formed states *)

Record wf (s : State) : Prop := mkWf {
  wf_uids : length (knownUIDs s) = MAX_PROJECTS;
  wf_names : length (projectNames s) = MAX_PROJECTS;
  wf_active : length (projectActive s) = MAX_PROJECTS;
  wf_start : length (projectStartTime s) = MAX_PROJECTS;
  wf_acc : length (projectAccumulatedTime s) = MAX_PROJECTS;
  wf_count : projectCount s ≤ MAX_PROJECTS
}.

(** ** The branches of a pass *)

(** The compaction loop on one array. *)
Definition shift_list {A} `{!Inhabited A} (lo n : nat) (l : list A) : list A :=
  for_range lo n (λ j l, <[j := l !!! S j]> l) l.

(** The serial branch is not taken. *)
Definition no_host_line (s : State) (inp : Input) : Prop :=
  waitingForProjectName s = false ∨ serialBuf inp = None.

(** What a pass does to the state, branch by branch; [loop_transition]
    proves it of [step]. *)
Inductive transition (s : State) (inp : Input) (s' : State) : Prop :=
  | T_add raw :
      waitingForProjectName s = true → serialBuf inp = Some raw →
      projectCount s < MAX_PROJECTS →
      projectCount s' = S (projectCount s) →
      pendingDeletion s' = pendingDeletion s →
      waitingForProjectName s' = false →
      newUID s' = newUID s →
      displayFreezeUntil s' = displayFreezeUntil s →
      (∀ k, k ≠ projectCount s → project_at s' k = project_at s k) →
      project_at s' (projectCount s) =
        mkProject (newUID s) (trim (readStringUntil newline raw)) false 0 0 →
      transition s inp s'
  | T_full raw :
      waitingForProjectName s = true → serialBuf inp = Some raw →
      MAX_PROJECTS ≤ projectCount s →
      s' = set_waitingForProjectName false s →
      transition s inp s'
  | T_none :
      no_host_line s inp → card inp = None → s' = s →
      transition s inp s'
  | T_admin uid :
      no_host_line s inp → card inp = Some uid → format_uid uid = ADMIN_UID →
      s' = set_pendingDeletion (negb (pendingDeletion s)) s →
      transition s inp s'
  | T_delete uid i :
      no_host_line s inp → card inp = Some uid → format_uid uid ≠ ADMIN_UID →
      pendingDeletion s = true → find s (format_uid uid) = Some i →
      projectCount s' = projectCount s - 1 →
      pendingDeletion s' = false →
      waitingForProjectName s' = waitingForProjectName s →
      newUID s' = newUID s →
      displayFreezeUntil s' = displayFreezeUntil s →
      (∀ k, k < i → project_at s' k = project_at s k) →
      (∀ k, i ≤ k < projectCount s - 1 → project_at s' k = project_at s (S k)) →
      transition s inp s'
  | T_not_found uid :
      no_host_line s inp → card inp = Some uid → format_uid uid ≠ ADMIN_UID →
      pendingDeletion s = true → find s (format_uid uid) = None →
      s' = set_pendingDeletion false s →
      transition s inp s'
  | T_start uid i :
      no_host_line s inp → card inp = Some uid → format_uid uid ≠ ADMIN_UID →
      pendingDeletion s = false → find s (format_uid uid) = Some i →
      isActive (project_at s i) = false →
      projectCount s' = projectCount s →
      pendingDeletion s' = false →
      waitingForProjectName s' = waitingForProjectName s →
      newUID s' = newUID s →
      displayFreezeUntil s' = uadd (now inp) 3000 →
      project_at s' i = started (now inp) (project_at s i) →
      (∀ k, k < projectCount s → k ≠ i →
            project_at s' k = stopped (now inp) (project_at s k)) →
      (∀ k, projectCount s ≤ k → project_at s' k = project_at s k) →
      transition s inp s'
  | T_pause uid i :
      no_host_line s inp → card inp = Some uid → format_uid uid ≠ ADMIN_UID →
      pendingDeletion s = false → find s (format_uid uid) = Some i →
      isActive (project_at s i) = true →
      projectCount s' = projectCount s →
      pendingDeletion s' = false →
      waitingForProjectName s' = waitingForProjectName s →
      newUID s' = newUID s →
      displayFreezeUntil s' = uadd (now inp) 3000 →
      project_at s' i = paused (now inp) (project_at s i) →
      (∀ k, k ≠ i → project_at s' k = project_at s k) →
      transition s inp s'
  | T_unknown uid :
      no_host_line s inp → card inp = Some uid → format_uid uid ≠ ADMIN_UID →
      pendingDeletion s = false → find s (format_uid uid) = None →
      s' = set_waitingForProjectName true (set_newUID (format_uid uid) s) →
      transition s inp s'.

(** ** Invariants *)

(** At most one registered project is running. *)
Definition one_active (s : State) : Prop :=
  ∀ i j, i < projectCount s → j < projectCount s →
         isActive (project_at s i) = true → isActive (project_at s j) = true → i = j.

(** No two registered projects have the same tag. *)
Definition unique_tags (s : State) : Prop :=
  ∀ i j, i < projectCount s → j < projectCount s →
         tagId (project_at s i) = tagId (project_at s j) → i = j.

(** While a name is awaited, the pending tag is not registered. *)
Definition pending_fresh (s : State) : Prop :=
  waitingForProjectName s = true →
  ∀ i, i < projectCount s → tagId (project_at s i) ≠ newUID s.

Definition tags_inv (s : State) : Prop := unique_tags s ∧ pending_fresh s.

(** The admin tag is neither registered nor pending. *)
Definition admin_reserved (s : State) : Prop :=
  (∀ i, i < projectCount s → tagId (project_at s i) ≠ ADMIN_UID) ∧
  (waitingForProjectName s = true → newUID s ≠ ADMIN_UID).

(** The clock readings of a run do not decrease and stay below [2^32]: the
    millisecond counter has not wrapped. *)
Fixpoint clock_ok (t : Z) (inps : list Input) : Prop :=
  match inps with
  | [] => True
  | inp :: rest => (t ≤ now inp < 2 ^ 32)%Z ∧ clock_ok (now inp) rest
  end.

(** The last clock reading of a run that starts at [t]. *)
Definition last_now (t : Z) (inps : list Input) : Z :=
  fold_left (λ _ inp, now inp) inps t.

(** At clock reading [t], no accumulated time exceeds [t], and a running
    session started after the time accumulated before it. *)
Definition time_inv (t : Z) (s : State) : Prop :=
  (0 ≤ t)%Z ∧
  ∀ k, k < projectCount s →
       (0 ≤ accumulatedMs (project_at s k) ≤ t)%Z ∧
       (isActive (project_at s k) = true →
        (accumulatedMs (project_at s k) ≤ sessionStart (project_at s k) ≤ t)%Z).

(** ** The admin card while a name is awaited *)

(** The admin card is handled in a pass that starts while a name is awaited. *)
Definition admin_while_waiting (s : State) (inp : Input) : bool :=
  waitingForProjectName s &&
  match serialBuf inp with Some _ => false | None => true end &&
  match card inp with
  | Some uid => String.eqb (format_uid uid) ADMIN_UID
  | None => false
  end.

(** No pass of the run handles the admin card while a name is awaited. *)
Fixpoint never_admin_while_waiting (s : State) (inps : list Input) : bool :=
  match inps with
  | [] => true
  | inp :: rest =>
      negb (admin_while_waiting s inp) && never_admin_while_waiting (step s inp) rest
  end.

(** ** Confirmations *)

(** The user-facing confirmations of the specification. *)
Inductive confirmation :=
  | ProjectAdded | CapacityExceeded | AdminToggled | ProjectDeleted
  | NotFound | ProjectStarted | ProjectPaused.

(** The confirmation that a pass shows, following the branches of [loop()]. *)
Definition confirmation_of (s : State) (inp : Input) : option confirmation :=
  match waitingForProjectName s, serialBuf inp with
  | true, Some _ =>
      if projectCount s <? MAX_PROJECTS then Some ProjectAdded else Some CapacityExceeded
  | _, _ =>
      match card inp with
      | None => None
      | Some uid =>
          if String.eqb (format_uid uid) ADMIN_UID then Some AdminToggled
          else if pendingDeletion s then
            match find s (format_uid uid) with
            | Some _ => Some ProjectDeleted
            | None => Some NotFound
            end
          else
            match find s (format_uid uid) with
            | Some i => if (projectActive s !!! i : bool)
                        then Some ProjectPaused else Some ProjectStarted
            | None => None
            end
      end
  end.

(** The texts on the LCD by which the confirmations are recognised. *)
Definition confirmation_text (c : confirmation) : list string :=
  match c with
  | ProjectAdded => ["Projekt hinzugefuegt:"]
  | CapacityExceeded => ["Max erreicht!"]
  | AdminToggled => ["Loeschmodus an"; "Abbruch"]
  | ProjectDeleted => ["geloescht"]
  | NotFound => ["Nicht gefunden"]
  | ProjectStarted => ["Gestartet"]
  | ProjectPaused => ["Pausiert"]
  end.

(** How long the pass blocks in [delay] right after the confirmation. *)
Definition confirmation_delay (c : confirmation) : option Z :=
  match c with
  | ProjectAdded | AdminToggled | ProjectDeleted => Some 3000%Z
  | CapacityExceeded | NotFound => Some 2000%Z
  | ProjectStarted | ProjectPaused => None
  end.

(** The pass shows confirmation [c] on the LCD. *)
Definition shown (c : confirmation) (out : list effect) : Prop :=
  ∃ text, text ∈ confirmation_text c ∧ LcdPrint text ∈ out.

(** ** White space *)

Fixpoint all_space (s : string) : bool :=
  match s with
  | EmptyString => true
  | String c r => isspace c && all_space r
  end.

Definition starts_with_space (s : string) : bool :=
  match s with
  | EmptyString => false
  | String c _ => isspace c
  end.

Fixpoint ends_with_space (s : string) : bool :=
  match s with
  | EmptyString => false
  | String c EmptyString => isspace c
  | String _ r => ends_with_space r
  end.

(** Character [t] occurs in [s]. *)
Fixpoint contains (t : ascii) (s : string) : bool :=
  match s with
  | EmptyString => false
  | String c r => Ascii.eqb c t || contains t r
  end.

Definition carriage_return : ascii := ascii_of_N 13.

(** ** Inputs and scenarios *)

Definition admin_bytes : list byte := [x74; x8a; x71; x16].
(** A pass that finds a card, and a pass that finds a host line. *)
Definition scan (uid : list byte) (t : Z) : Input := mkInput None (Some uid) t t.
Definition host (line : string) (t : Z) : Input := mkInput (Some line) None t t.

Definition tag_aabb : list byte := [xaa; xbb].
Definition tag_1111 : list byte := [x11; x11].
Definition tag_2222 : list byte := [x22; x22].

(** Scenario B: project "Demo" (tag aa:bb) runs since 1000. *)
Definition scenario_B : list Input :=
  [scan tag_aabb 0; host "Demo" 0; scan tag_aabb 1000].

(** Projects "A" (tag 11:11) and "B" (tag 22:22); "A" runs since 0. *)
Definition scenario_C : list Input :=
  [scan tag_1111 0; host "A" 0; scan tag_2222 0; host "B" 0; scan tag_1111 0].

(** Scenario D: project "A" (tag 11:11) with 2000 ms accumulated runs since
    2000, and deletion is armed. *)
Definition scenario_D : list Input :=
  [scan tag_1111 0; host "A" 0; scan tag_1111 0; scan tag_1111 2000;
   scan tag_1111 2000; scan admin_bytes 2000].

(** Projects "A", "B" and "C"; deletion is armed. *)
Definition scenario_ABC : list Input :=
  [scan tag_1111 0; host "A" 0; scan tag_2222 0; host "B" 0;
   scan tag_aabb 0; host "C" 0; scan tag_aabb 100; scan admin_bytes 200].

(** Ten registered projects and an eleventh, unknown card scanned. *)
Definition scenario_E : list Input :=
  flat_map (λ b, [scan [b; b] 0; host "P" 0])
    [x01; x02; x03; x04; x05; x06; x07; x08; x09; x0a] ++ [scan tag_aabb 0].

(** Project "A" registered, an unknown card scanned, and the admin card. *)
Definition scenario_armed_while_waiting : list Input :=
  [scan tag_1111 0; host "A" 0; scan tag_aabb 100; scan admin_bytes 200].

(** ** What a pass does to the outside *)

(** The pass takes the serial branch (line 99). *)
Definition host_line_taken (s : State) (inp : Input) : bool :=
  waitingForProjectName s &&
  match serialBuf inp with Some _ => true | None => false end.

(** The milliseconds a pass spends in [delay]. *)
Fixpoint total_delay (out : list effect) : Z :=
  match out with
  | [] => 0%Z
  | Delay ms :: rest => (ms + total_delay rest)%Z
  | _ :: rest => total_delay rest
  end.

(** How often a pass calls [PICC_HaltA]. *)
Fixpoint count_halts (out : list effect) : nat :=
  match out with
  | [] => 0
  | PiccHaltA :: rest => S (count_halts rest)
  | _ :: rest => count_halts rest
  end.

(** Every [PICC_HaltA] of the pass is directly followed by [delay(1000)]. *)
Fixpoint halt_then_wait (out : list effect) : bool :=
  match out with
  | [] => true
  | PiccHaltA :: rest =>
      match rest with
      | Delay ms :: _ => (ms =? 1000)%Z
      | _ => false
      end && halt_then_wait rest
  | _ :: rest => halt_then_wait rest
  end.

(** ** The screens of the display block *)

(** Lines 298-303: the elapsed time on the second row. *)
Definition time_row (laufzeit : Z) : list effect :=
  print_padded (hours_of laufzeit) "h " ++
  print_padded (minutes_of laufzeit) "m " ++
  print_padded (seconds_of laufzeit) "s".

(** Lines 290-303: the name of a project and its elapsed time. *)
Definition running_screen (name : string) (laufzeit : Z) : list effect :=
  [LcdSetCursor 0 0] ++ clearLCDLine 0 ++
  [LcdSetCursor 0 0; LcdPrint name; LcdSetCursor 0 1] ++
  clearLCDLine 1 ++ [LcdSetCursor 0 1] ++ time_row laufzeit.

(** Lines 308-311: the prompt on the first row. *)
Definition prompt_screen : list effect :=
  [LcdSetCursor 0 0] ++ clearLCDLine 0 ++ [LcdSetCursor 0 0; LcdPrint "Projekt?"].

(** The number of characters a list of effects prints on the LCD. *)
Fixpoint lcd_width (out : list effect) : nat :=
  match out with
  | [] => 0
  | LcdPrint text :: rest => String.length text + lcd_width rest
  | _ :: rest => lcd_width rest
  end.

(** The number of decimal digits of a number below 10000. *)
Definition digits (v : Z) : nat :=
  if (v <? 10)%Z then 1 else if (v <? 100)%Z then 2 else if (v <? 1000)%Z then 3 else 4.

Definition digits_ok (v : Z) : bool :=
  String.length (String_dec v) =? digits v.

(** ** Values of [unsigned long] *)

(** [z] is a value of a 32-bit unsigned variable. *)
Definition u32 (z : Z) : Prop := (0 ≤ z < 2 ^ 32)%Z.

(** The freeze deadline and all elements of the two time arrays are values of
    [unsigned long]. *)
Definition in_range (s : State) : Prop :=
  u32 (displayFreezeUntil s) ∧
  ∀ k, k < MAX_PROJECTS →
       u32 (sessionStart (project_at s k)) ∧ u32 (accumulatedMs (project_at s k)).

(** ** The time credited to all projects *)

Fixpoint sumZ (l : list Z) : Z :=
  match l with
  | [] => 0%Z
  | z :: rest => (z + sumZ rest)%Z
  end.

(** The totals at time [t] of the first [n] entries, added up. *)
Definition credited_upto (s : State) (n : nat) (t : Z) : Z :=
  sumZ ((λ k, totalMs (project_at s k) t) <$> seq 0 n).

(** The totals at time [t] of all registered projects, added up. *)
Definition credited (s : State) (t : Z) : Z := credited_upto s (projectCount s) t.

(** ** Loops *)

Lemma find_from_Some uids uid i n k :
  find_from uids uid i n = Some k →
  i ≤ k < i + n ∧ uids !!! k = uid ∧ ∀ j, i ≤ j < k → uids !!! j ≠ uid.
Proof.
  revert i. induction n as [|n IH]; intros i; simpl; [discriminate|].
  destruct (String.eqb_spec (uids !!! i) uid) as [Heq|Hne].
  - intros [= <-]. split; [lia|]. split; [done|]. intros j ?; lia.
  - intros Hf. destruct (IH _ Hf) as (Hr & Hk & Hb).
    split; [lia|]. split; [done|].
    intros j Hj. destruct (decide (j = i)) as [->|]; [done|]. apply Hb; lia.
Qed.

Lemma find_from_None uids uid i n :
  find_from uids uid i n = None → ∀ j, i ≤ j < i + n → uids !!! j ≠ uid.
Proof.
  revert i. induction n as [|n IH]; intros i; simpl; [intros _ j ?; lia|].
  destruct (String.eqb_spec (uids !!! i) uid) as [Heq|Hne]; [discriminate|].
  intros Hf j Hj. destruct (decide (j = i)) as [->|]; [done|].
  apply (IH _ Hf); lia.
Qed.

Lemma find_Some s uid k :
  find s uid = Some k →
  k < projectCount s ∧ knownUIDs s !!! k = uid ∧
  ∀ j, j < k → knownUIDs s !!! j ≠ uid.
Proof.
  intros Hf. destruct (find_from_Some _ _ _ _ _ Hf) as (? & ? & Hb).
  split; [lia|]. split; [done|]. intros j ?; apply Hb; lia.
Qed.

Lemma find_None s uid :
  find s uid = None → ∀ j, j < projectCount s → knownUIDs s !!! j ≠ uid.
Proof. intros Hf j ?. apply (find_from_None _ _ _ _ Hf); lia. Qed.

Lemma shift_list_length {A} `{!Inhabited A} lo n (l : list A) :
  length (shift_list lo n l) = length l.
Proof.
  unfold shift_list. revert lo l. induction n as [|n IH]; intros lo l; simpl; [done|].
  by rewrite IH, length_insert.
Qed.

Lemma shift_list_lookup {A} `{!Inhabited A} lo n (l : list A) k :
  lo + n < length l →
  shift_list lo n l !!! k = if decide (lo ≤ k < lo + n) then l !!! S k else l !!! k.
Proof.
  unfold shift_list. revert lo l. induction n as [|n IH]; intros lo l Hlen; simpl.
  - case_decide; [lia|done].
  - rewrite IH by (rewrite length_insert; lia).
    rewrite !list_lookup_total_insert.
    repeat case_decide; try lia; try done.
    destruct_and?; subst; done.
Qed.

Lemma shift_loop_fields lo n s :
  let s' := for_range lo n shift_body s in
  knownUIDs s' = shift_list lo n (knownUIDs s) ∧
  projectNames s' = shift_list lo n (projectNames s) ∧
  projectActive s' = shift_list lo n (projectActive s) ∧
  projectStartTime s' = shift_list lo n (projectStartTime s) ∧
  projectAccumulatedTime s' = shift_list lo n (projectAccumulatedTime s) ∧
  projectCount s' = projectCount s ∧
  pendingDeletion s' = pendingDeletion s ∧
  waitingForProjectName s' = waitingForProjectName s ∧
  newUID s' = newUID s ∧
  displayFreezeUntil s' = displayFreezeUntil s.
Proof.
  revert lo s. induction n as [|n IH]; intros lo s; simpl; [done|].
  destruct (IH (S lo) (shift_body lo s)) as (-> & -> & -> & -> & -> & -> & -> & -> & -> & ->).
  done.
Qed.

Lemma project_at_stop_body t i s k :
  i < length (projectActive s) → i < length (projectAccumulatedTime s) →
  project_at (stop_body t i s) k =
  if decide (k = i) then stopped t (project_at s i) else project_at s k.
Proof.
  intros Ha Hc. unfold stop_body, stopped, project_at; simpl.
  destruct (projectActive s !!! i) eqn:Hact; simpl.
  - rewrite !list_lookup_total_insert.
    repeat case_decide; destruct_and?; subst; try done; lia.
  - case_decide; subst; [by rewrite Hact|done].
Qed.

Lemma stop_loop_spec t lo n s :
  lo + n ≤ length (projectActive s) →
  lo + n ≤ length (projectAccumulatedTime s) →
  let s' := for_range lo n (stop_body t) s in
  length (projectActive s') = length (projectActive s) ∧
  length (projectAccumulatedTime s') = length (projectAccumulatedTime s) ∧
  knownUIDs s' = knownUIDs s ∧
  projectNames s' = projectNames s ∧
  projectStartTime s' = projectStartTime s ∧
  projectCount s' = projectCount s ∧
  pendingDeletion s' = pendingDeletion s ∧
  waitingForProjectName s' = waitingForProjectName s ∧
  newUID s' = newUID s ∧
  displayFreezeUntil s' = displayFreezeUntil s ∧
  ∀ k, project_at s' k =
       if decide (lo ≤ k < lo + n) then stopped t (project_at s k) else project_at s k.
Proof.
  revert lo s. induction n as [|n IH]; intros lo s Ha Hc; simpl.
  - repeat split; try done. intros k. case_decide; [lia|done].
  - assert (Hlen : length (projectActive (stop_body t lo s)) = length (projectActive s)
                   ∧ length (projectAccumulatedTime (stop_body t lo s))
                     = length (projectAccumulatedTime s)).
    { unfold stop_body. destruct (projectActive s !!! lo); simpl;
        by rewrite ?length_insert. }
    destruct Hlen as [Hla Hlc].
    destruct (IH (S lo) (stop_body t lo s)) as
      (-> & -> & -> & -> & -> & -> & -> & -> & -> & -> & Hk); [lia|lia|].
    repeat split; try done;
      try (unfold stop_body; destruct (projectActive s !!! lo); done).
    intros k. rewrite Hk, !project_at_stop_body by lia.
    repeat case_decide; subst; try lia; done.
Qed.

(** ** The passes of [loop()], case by case *)

Lemma host_line_wf s raw : wf s → wf (fst (host_line s raw)).
Proof.
  intros [].
  unfold host_line. destruct (Nat.ltb_spec (projectCount s) MAX_PROJECTS);
    constructor; simpl; rewrite ?length_insert; try done; lia.
Qed.

Lemma delete_project_fields s i t :
  let s1 := if (projectActive s !!! i : bool)
            then set_projectActive (<[i := false]> (projectActive s)) s else s in
  let n := projectCount s - 1 - i in
  let s' := fst (delete_project s i t) in
  knownUIDs s' = shift_list i n (knownUIDs s) ∧
  projectNames s' = shift_list i n (projectNames s) ∧
  projectActive s' = shift_list i n (projectActive s1) ∧
  projectStartTime s' = shift_list i n (projectStartTime s) ∧
  projectAccumulatedTime s' = shift_list i n (projectAccumulatedTime s) ∧
  projectCount s' = projectCount s - 1 ∧
  pendingDeletion s' = false ∧
  waitingForProjectName s' = waitingForProjectName s ∧
  newUID s' = newUID s ∧
  displayFreezeUntil s' = displayFreezeUntil s.
Proof.
  unfold delete_project, for_loop.
  destruct (projectActive s !!! i); simpl;
    match goal with
    | |- context [for_range ?lo ?n shift_body ?s0] =>
        destruct (shift_loop_fields lo n s0)
          as (Hu & Hn & Ha & Hs & Hc & Hcnt & Hp & Hw & Hnu & Hf)
    end; simpl in *; by rewrite Hu, Hn, Ha, Hs, Hc, Hcnt, Hw, Hnu, Hf.
Qed.

Lemma delete_project_wf s i t : wf s → i < projectCount s → wf (fst (delete_project s i t)).
Proof.
  intros [] Hi.
  destruct (delete_project_fields s i t) as (Hu & Hn & Ha & Hs & Hc & Hcnt & _).
  constructor; rewrite ?Hu, ?Hn, ?Ha, ?Hs, ?Hc, ?Hcnt, ?shift_list_length; try done.
  - destruct (projectActive s !!! i); simpl; by rewrite ?length_insert.
  - lia.
Qed.

Lemma delete_project_at s i t k :
  wf s → i < projectCount s →
  project_at (fst (delete_project s i t)) k =
  if decide (k < i) then project_at s k
  else if decide (k < projectCount s - 1) then project_at s (S k)
  else if decide (k = i) then
         mkProject (tagId (project_at s k)) (name (project_at s k)) false
           (sessionStart (project_at s k)) (accumulatedMs (project_at s k))
  else project_at s k.
Proof.
  intros [] Hi.
  destruct (delete_project_fields s i t) as (Hu & Hn & Ha & Hs & Hc & _).
  unfold project_at. rewrite Hu, Hn, Ha, Hs, Hc.
  assert (Hm : MAX_PROJECTS = 10) by done.
  rewrite !shift_list_lookup
    by (destruct (projectActive s !!! i); simpl; rewrite ?length_insert; lia).
  repeat case_decide; try lia; subst; try done.
  - destruct (projectActive s !!! i); simpl; [|done].
    by rewrite list_lookup_total_insert_ne by lia.
  - destruct (projectActive s !!! i); simpl; [|done].
    by rewrite list_lookup_total_insert_ne by lia.
  - destruct (projectActive s !!! i) eqn:Hact; simpl; [|by rewrite Hact].
    by rewrite list_lookup_total_insert_eq by lia.
  - destruct (projectActive s !!! i); simpl; [|done].
    by rewrite list_lookup_total_insert_ne by lia.
Qed.

Lemma start_project_spec s i t :
  wf s → i < projectCount s → isActive (project_at s i) = false →
  let s' := fst (start_project s i t) in
  wf s' ∧
  projectCount s' = projectCount s ∧
  pendingDeletion s' = pendingDeletion s ∧
  waitingForProjectName s' = waitingForProjectName s ∧
  newUID s' = newUID s ∧
  displayFreezeUntil s' = displayFreezeUntil s ∧
  project_at s' i = started t (project_at s i) ∧
  (∀ k, k < projectCount s → k ≠ i → project_at s' k = stopped t (project_at s k)) ∧
  (∀ k, projectCount s ≤ k → project_at s' k = project_at s k).
Proof.
  intros [] Hi Hina. unfold start_project, for_loop. rewrite Nat.sub_0_r.
  assert (Hm : MAX_PROJECTS = 10) by done.
  set (s1 := for_range 0 (projectCount s) (stop_body t) s).
  destruct (stop_loop_spec t 0 (projectCount s) s)
    as (Hla & Hlc & Hu & Hn & Hs & Hcnt & Hp & Hw & Hnu & Hf & Hk); [lia|lia|].
  fold s1 in Hla, Hlc, Hu, Hn, Hs, Hcnt, Hp, Hw, Hnu, Hf, Hk.
  simpl. split; [|repeat split; try done].
  - constructor; simpl; rewrite ?length_insert; congruence.
  - specialize (Hk i). case_decide; [|lia].
    unfold stopped in Hk. rewrite Hina in Hk.
    unfold project_at in *; simpl. rewrite Hs.
    rewrite !list_lookup_total_insert_eq by lia.
    unfold started; simpl. injection Hk as -> -> _ _ ->. done.
  - intros k Hkc Hne. specialize (Hk k). case_decide; [|lia]. rewrite <- Hk.
    unfold project_at; simpl. by rewrite !list_lookup_total_insert_ne.
  - intros k Hkc. specialize (Hk k). case_decide; [lia|]. rewrite <- Hk.
    unfold project_at; simpl. by rewrite !list_lookup_total_insert_ne by lia.
Qed.

Lemma pause_project_spec s i t :
  wf s → i < projectCount s →
  let s' := fst (pause_project s i t) in
  wf s' ∧
  projectCount s' = projectCount s ∧
  pendingDeletion s' = pendingDeletion s ∧
  waitingForProjectName s' = waitingForProjectName s ∧
  newUID s' = newUID s ∧
  displayFreezeUntil s' = displayFreezeUntil s ∧
  project_at s' i = paused t (project_at s i) ∧
  (∀ k, k ≠ i → project_at s' k = project_at s k).
Proof.
  intros [] Hi. unfold pause_project. simpl.
  assert (Hm : MAX_PROJECTS = 10) by done.
  split; [|repeat split; try done].
  - constructor; simpl; rewrite ?length_insert; congruence.
  - unfold project_at, paused; simpl.
    by rewrite !list_lookup_total_insert_eq by lia.
  - intros k Hne. unfold project_at; simpl.
    by rewrite !list_lookup_total_insert_ne.
Qed.

Lemma host_line_add_at s raw k :
  wf s → projectCount s < MAX_PROJECTS →
  project_at (fst (host_line s raw)) k =
  if decide (k = projectCount s)
  then mkProject (newUID s) (trim (readStringUntil newline raw)) false 0 0
  else project_at s k.
Proof.
  intros [] Hlt. unfold host_line.
  destruct (Nat.ltb_spec (projectCount s) MAX_PROJECTS); [|lia].
  unfold project_at; simpl. case_decide; subst.
  - by rewrite !list_lookup_total_insert_eq by lia.
  - by rewrite !list_lookup_total_insert_ne.
Qed.

Lemma set_pendingDeletion_wf b s : wf s → wf (set_pendingDeletion b s).
Proof. by intros []. Qed.
Lemma set_waitingForProjectName_wf b s : wf s → wf (set_waitingForProjectName b s).
Proof. by intros []. Qed.
Lemma set_newUID_wf u s : wf s → wf (set_newUID u s).
Proof. by intros []. Qed.
Lemma set_displayFreezeUntil_wf z s : wf s → wf (set_displayFreezeUntil z s).
Proof. by intros []. Qed.

Create HintDb wfdb.
#[local] Hint Resolve set_pendingDeletion_wf set_waitingForProjectName_wf
  set_newUID_wf set_displayFreezeUntil_wf : wfdb.

#[local] Arguments start_project : simpl never.
#[local] Arguments pause_project : simpl never.
#[local] Arguments delete_project : simpl never.
#[local] Arguments host_line : simpl never.

Lemma card_transition s inp uid :
  wf s → no_host_line s inp → card inp = Some uid →
  let s' := fst (fst (handle_card s uid (now inp))) in
  transition s inp s' ∧ wf s'.
Proof.
  intros Hwf Hno Hcard. unfold handle_card.
  destruct (String.eqb_spec (format_uid uid) ADMIN_UID) as [Hadm|Hadm].
  { simpl. split; [by eapply T_admin|by auto with wfdb]. }
  destruct (pendingDeletion s) eqn:Hpend.
  - destruct (find s (format_uid uid)) as [i|] eqn:Hfind.
    + destruct (find_Some _ _ _ Hfind) as (Hi & _).
      destruct (delete_project s i (now inp)) as [s1 out] eqn:Hdel. simpl.
      assert (Hs1 : s1 = fst (delete_project s i (now inp))) by (by rewrite Hdel).
      subst s1. split; [|by apply delete_project_wf].
      destruct (delete_project_fields s i (now inp))
        as (_ & _ & _ & _ & _ & Hcnt & Hp & Hw & Hnu & Hf).
      eapply T_delete; try done.
      * intros k Hk. rewrite delete_project_at by done. by rewrite decide_True.
      * intros k Hk. rewrite delete_project_at by done.
        rewrite decide_False by lia. by rewrite decide_True by lia.
    + simpl. split; [by eapply T_not_found|by auto with wfdb].
  - destruct (find s (format_uid uid)) as [i|] eqn:Hfind.
    + destruct (find_Some _ _ _ Hfind) as (Hi & _).
      unfold known_card.
      destruct (projectActive s !!! i) eqn:Hact; cbn [negb].
      * pose proof (pause_project_spec s i (now inp) Hwf Hi) as Hspec.
        destruct (pause_project s i (now inp)) as [s1 out]. simpl in Hspec |- *.
        destruct Hspec as (Hwf1 & Hcnt & Hpd & Hw & Hnu & Hf & Hat & Hoth).
        split; [|by auto with wfdb].
        eapply T_pause; try done. simpl. congruence.
      * pose proof (start_project_spec s i (now inp) Hwf Hi Hact) as Hspec.
        destruct (start_project s i (now inp)) as [s1 out]. simpl in Hspec |- *.
        destruct Hspec as (Hwf1 & Hcnt & Hpd & Hw & Hnu & Hf & Hat & Hoth & Hrest).
        split; [|by auto with wfdb].
        eapply T_start; try done. simpl. congruence.
    + simpl. split; [by eapply T_unknown|].
      auto with wfdb.
Qed.

Lemma loop_transition s inp :
  wf s → transition s inp (step s inp) ∧ wf (step s inp).
Proof.
  intros Hwf. unfold step, loop.
  assert (Hcard : no_host_line s inp →
    let r := match card inp with
             | Some uid =>
                 let '(s1, out, returned) := handle_card s uid (now inp) in
                 if returned then (s1, out) else (s1, out ++ display s1 (nowDisplay inp))
             | None => (s, display s (nowDisplay inp))
             end in
    transition s inp (fst r) ∧ wf (fst r)).
  { intros Hno. destruct (card inp) as [uid|] eqn:Hc; simpl.
    - destruct (card_transition s inp uid Hwf Hno Hc) as [Ht Hw].
      destruct (handle_card s uid (now inp)) as [[s1 out] [|]]; done.
    - split; [by apply T_none|done]. }
  destruct (waitingForProjectName s) eqn:Hw; [|apply Hcard; by left].
  destruct (serialBuf inp) as [raw|] eqn:Hser; [|apply Hcard; by right].
  split; [|by apply host_line_wf].
  destruct (Nat.lt_ge_cases (projectCount s) MAX_PROJECTS) as [Hlt|Hge].
  - eapply T_add; try done.
    + unfold host_line. destruct (Nat.ltb_spec (projectCount s) MAX_PROJECTS); [done|lia].
    + unfold host_line. destruct (Nat.ltb_spec (projectCount s) MAX_PROJECTS); [done|lia].
    + unfold host_line. destruct (Nat.ltb_spec (projectCount s) MAX_PROJECTS); [done|lia].
    + unfold host_line. destruct (Nat.ltb_spec (projectCount s) MAX_PROJECTS); [done|lia].
    + unfold host_line. destruct (Nat.ltb_spec (projectCount s) MAX_PROJECTS); [done|lia].
    + intros k Hk. rewrite host_line_add_at by done. by rewrite decide_False.
    + rewrite host_line_add_at by done. by rewrite decide_True.
  - eapply T_full; try done.
    unfold host_line. destruct (Nat.ltb_spec (projectCount s) MAX_PROJECTS); [lia|done].
Qed.

Lemma boot_wf : wf boot.
Proof. constructor; simpl; try done. lia. Qed.

Lemma step_wf s inp : wf s → wf (step s inp).
Proof. intros. by apply loop_transition. Qed.

(** The arrays keep their size and [projectCount] stays within bounds. *)
Lemma wf_preserved inps s : wf s → wf (run s inps).
Proof.
  revert s. induction inps as [|inp inps IH]; intros s Hwf; simpl; [done|].
  apply IH. by apply step_wf.
Qed.

(** Keeps the cases of a [transition] that agree with the hypotheses. *)
Ltac pick_transition Ht :=
  destruct Ht; unfold no_host_line in *; simplify_eq;
  try congruence; try lia; try (by intuition congruence).

(** The passes that change the registry, from [loop_transition]. *)
Lemma step_start s inp uid i :
  wf s → no_host_line s inp → card inp = Some uid → format_uid uid ≠ ADMIN_UID →
  pendingDeletion s = false → find s (format_uid uid) = Some i →
  isActive (project_at s i) = false →
  let s' := step s inp in
  projectCount s' = projectCount s ∧
  pendingDeletion s' = false ∧
  waitingForProjectName s' = waitingForProjectName s ∧
  newUID s' = newUID s ∧
  displayFreezeUntil s' = uadd (now inp) 3000 ∧
  project_at s' i = started (now inp) (project_at s i) ∧
  (∀ k, k < projectCount s → k ≠ i →
        project_at s' k = stopped (now inp) (project_at s k)) ∧
  (∀ k, projectCount s ≤ k → project_at s' k = project_at s k).
Proof.
  intros Hwf Hno Hcard Hadm Hp Hfind Hina s'.
  destruct (loop_transition s inp Hwf) as [Ht _]. fold s' in Ht.
  pick_transition Ht; by repeat split.
Qed.

Lemma step_pause s inp uid i :
  wf s → no_host_line s inp → card inp = Some uid → format_uid uid ≠ ADMIN_UID →
  pendingDeletion s = false → find s (format_uid uid) = Some i →
  isActive (project_at s i) = true →
  let s' := step s inp in
  projectCount s' = projectCount s ∧
  pendingDeletion s' = false ∧
  waitingForProjectName s' = waitingForProjectName s ∧
  newUID s' = newUID s ∧
  displayFreezeUntil s' = uadd (now inp) 3000 ∧
  project_at s' i = paused (now inp) (project_at s i) ∧
  (∀ k, k ≠ i → project_at s' k = project_at s k).
Proof.
  intros Hwf Hno Hcard Hadm Hp Hfind Hina s'.
  destruct (loop_transition s inp Hwf) as [Ht _]. fold s' in Ht.
  pick_transition Ht; by repeat split.
Qed.

Lemma step_delete s inp uid i :
  wf s → no_host_line s inp → card inp = Some uid → format_uid uid ≠ ADMIN_UID →
  pendingDeletion s = true → find s (format_uid uid) = Some i →
  let s' := step s inp in
  projectCount s' = projectCount s - 1 ∧
  pendingDeletion s' = false ∧
  waitingForProjectName s' = waitingForProjectName s ∧
  newUID s' = newUID s ∧
  displayFreezeUntil s' = displayFreezeUntil s ∧
  (∀ k, k < i → project_at s' k = project_at s k) ∧
  (∀ k, i ≤ k < projectCount s - 1 → project_at s' k = project_at s (S k)).
Proof.
  intros Hwf Hno Hcard Hadm Hp Hfind s'.
  destruct (loop_transition s inp Hwf) as [Ht _]. fold s' in Ht.
  pick_transition Ht; by repeat split.
Qed.

Lemma step_add s inp raw :
  wf s → waitingForProjectName s = true → serialBuf inp = Some raw →
  projectCount s < MAX_PROJECTS →
  let s' := step s inp in
  projectCount s' = S (projectCount s) ∧
  pendingDeletion s' = pendingDeletion s ∧
  waitingForProjectName s' = false ∧
  newUID s' = newUID s ∧
  displayFreezeUntil s' = displayFreezeUntil s ∧
  (∀ k, k ≠ projectCount s → project_at s' k = project_at s k) ∧
  project_at s' (projectCount s) =
    mkProject (newUID s) (trim (readStringUntil newline raw)) false 0 0.
Proof.
  intros Hwf Hw Hser Hlt s'.
  destruct (loop_transition s inp Hwf) as [Ht _]. fold s' in Ht.
  pick_transition Ht; by repeat split.
Qed.

(** ** Invariants of the reachable states *)

Section Invariants.
Variable P : State → Prop.
Hypothesis P_boot : P boot.
Hypothesis P_step : ∀ s inp, wf s → P s → P (step s inp).

Lemma run_from_invariant inps s : wf s → P s → P (run s inps).
Proof using P_step.
  revert s. induction inps as [|inp inps IH]; intros s Hwf Hs; simpl; [done|].
  apply IH; [by apply step_wf|by apply P_step].
Qed.

Lemma run_invariant inps : P (run boot inps).
Proof using P_boot P_step. apply run_from_invariant; [apply boot_wf|done]. Qed.

Lemma trace_from_invariant inps s : wf s → P s → Forall P (trace s inps).
Proof using P_step.
  revert s. induction inps as [|inp inps IH]; intros s Hwf Hs; simpl; [done|].
  constructor; [by apply P_step|].
  apply IH; [by apply step_wf|by apply P_step].
Qed.

Lemma trace_invariant inps : Forall P (trace boot inps).
Proof using P_boot P_step. apply trace_from_invariant; [apply boot_wf|done]. Qed.
End Invariants.

Lemma stopped_inactive t p : isActive (stopped t p) = false.
Proof. unfold stopped. by destruct (isActive p) eqn:?. Qed.

Lemma stopped_tagId t p : tagId (stopped t p) = tagId p.
Proof. unfold stopped. by destruct (isActive p). Qed.

Lemma one_active_step s inp : wf s → one_active s → one_active (step s inp).
Proof.
  intros Hwf Hone. destruct (loop_transition s inp Hwf) as [Ht _].
  revert Ht. generalize (step s inp). intros s' Ht i j.
  destruct Ht as
    [raw ? ? ? Hcnt ? ? ? ? Hoth Hnew | raw ? ? ? -> | ? ? -> | uid ? ? ? ->
    | uid d ? ? ? ? ? Hcnt ? ? ? ? Hlo Hhi | uid ? ? ? ? ? ->
    | uid d ? ? ? ? ? ? Hcnt ? ? ? ? Hat Hoth ?
    | uid d ? ? ? ? ? ? Hcnt ? ? ? ? Hat Hoth | uid ? ? ? ? ? ->];
    try exact (Hone i j).
  - (* registration *)
    rewrite Hcnt. intros Hi Hj Hai Haj.
    destruct (decide (i = projectCount s)) as [->|]; [by rewrite Hnew in Hai|].
    destruct (decide (j = projectCount s)) as [->|]; [by rewrite Hnew in Haj|].
    rewrite Hoth in Hai, Haj by done. apply Hone; [lia|lia|done|done].
  - (* deletion *)
    rewrite Hcnt. intros Hi Hj Hai Haj.
    set (m := λ k, if decide (k < d) then k else S k).
    assert (Hm : ∀ k, k < projectCount s - 1 → project_at s' k = project_at s (m k)).
    { intros k Hk. unfold m. case_decide; [by apply Hlo|apply Hhi; lia]. }
    rewrite Hm in Hai, Haj by done.
    assert (m i = m j); [|unfold m in *; repeat case_decide; lia].
    apply Hone; [unfold m; case_decide; lia|unfold m; case_decide; lia|done|done].
  - (* start *)
    rewrite Hcnt. intros Hi Hj Hai Haj.
    destruct (decide (i = d)) as [->|];
      [|by rewrite Hoth, stopped_inactive in Hai].
    destruct (decide (j = d)) as [->|]; [done|].
    by rewrite Hoth, stopped_inactive in Haj.
  - (* pause *)
    rewrite Hcnt. intros Hi Hj Hai Haj.
    destruct (decide (i = d)) as [->|]; [by rewrite Hat in Hai|].
    destruct (decide (j = d)) as [->|]; [by rewrite Hat in Haj|].
    rewrite Hoth in Hai, Haj by done. by apply Hone.
Qed.

Lemma one_active_boot : one_active boot.
Proof. intros i j Hi. simpl in Hi. lia. Qed.

Lemma tags_inv_step s inp : wf s → tags_inv s → tags_inv (step s inp).
Proof.
  intros Hwf [Huniq Hfresh]. destruct (loop_transition s inp Hwf) as [Ht _].
  revert Ht. generalize (step s inp). intros s' Ht.
  destruct Ht as
    [raw Hw ? ? Hcnt ? Hw' ? ? Hoth Hnew | raw ? ? ? -> | ? ? -> | uid ? ? ? ->
    | uid d ? ? ? ? ? Hcnt ? Hw' Hnu ? Hlo Hhi | uid ? ? ? ? ? ->
    | uid d ? ? ? ? ? ? Hcnt ? Hw' Hnu ? Hat Hoth ?
    | uid d ? ? ? ? Hfind ? Hcnt ? Hw' Hnu ? Hat Hoth | uid ? ? ? ? Hfind ->];
    try (split; [exact Huniq|exact Hfresh]).
  - (* registration *)
    split; [|intros Hw''; congruence].
    intros i j. rewrite Hcnt. intros Hi Hj Heq.
    destruct (decide (i = projectCount s)) as [->|Hni];
      destruct (decide (j = projectCount s)) as [->|Hnj]; try done.
    + rewrite Hnew, Hoth in Heq by done. simpl in Heq.
      exfalso. apply (Hfresh Hw j); [lia|done].
    + rewrite Hnew, Hoth in Heq by done. simpl in Heq.
      exfalso. apply (Hfresh Hw i); [lia|done].
    + rewrite !Hoth in Heq by done. apply Huniq; [lia|lia|done].
  - (* capacity *)
    split; [exact Huniq|]. intros Hw; simpl in Hw; done.
  - (* deletion *)
    set (m := λ k, if decide (k < d) then k else S k).
    assert (Hm : ∀ k, k < projectCount s - 1 → project_at s' k = project_at s (m k)).
    { intros k Hk. unfold m. case_decide; [by apply Hlo|apply Hhi; lia]. }
    assert (Hmr : ∀ k, k < projectCount s - 1 → m k < projectCount s).
    { intros k Hk. unfold m. case_decide; lia. }
    split.
    + intros i j. rewrite Hcnt. intros Hi Hj Heq.
      rewrite !Hm in Heq by done.
      assert (m i = m j) by (apply Huniq; auto).
      unfold m in *; repeat case_decide; lia.
    + intros Hw i. rewrite Hcnt, Hnu. intros Hi. rewrite Hm by done.
      apply Hfresh; [congruence|auto].
  - (* start *)
    assert (Htag : ∀ k, k < projectCount s → tagId (project_at s' k) = tagId (project_at s k)).
    { intros k Hk. destruct (decide (k = d)) as [->|]; [by rewrite Hat|].
      by rewrite Hoth, stopped_tagId. }
    split.
    + intros i j. rewrite Hcnt. intros Hi Hj. rewrite !Htag by done. by apply Huniq.
    + intros Hw i. rewrite Hcnt, Hnu. intros Hi. rewrite Htag by done.
      apply Hfresh; [congruence|done].
  - (* pause *)
    assert (Htag : ∀ k, tagId (project_at s' k) = tagId (project_at s k)).
    { intros k. destruct (decide (k = d)) as [->|]; [by rewrite Hat|by rewrite Hoth]. }
    split.
    + intros i j. rewrite Hcnt. intros Hi Hj. rewrite !Htag. by apply Huniq.
    + intros Hw i. rewrite Hcnt, Hnu. intros Hi. rewrite Htag.
      apply Hfresh; [congruence|done].
  - (* unknown card *)
    split; [exact Huniq|]. intros _ i Hi. simpl in *.
    by apply (find_None _ _ Hfind).
Qed.

Lemma tags_inv_boot : tags_inv boot.
Proof. split; [intros i j Hi; simpl in Hi; lia|intros Hw; done]. Qed.

Lemma admin_reserved_step s inp : wf s → admin_reserved s → admin_reserved (step s inp).
Proof.
  intros Hwf [Hreg Hpend]. destruct (loop_transition s inp Hwf) as [Ht _].
  revert Ht. generalize (step s inp). intros s' Ht.
  destruct Ht as
    [raw Hw ? ? Hcnt ? Hw' ? ? Hoth Hnew | raw ? ? ? -> | ? ? -> | uid ? ? ? ->
    | uid d ? ? ? ? ? Hcnt ? Hw' Hnu ? Hlo Hhi | uid ? ? ? ? ? ->
    | uid d ? ? ? ? ? ? Hcnt ? Hw' Hnu ? Hat Hoth ?
    | uid d ? ? ? ? Hfind ? Hcnt ? Hw' Hnu ? Hat Hoth | uid ? ? Hadm ? Hfind ->];
    try (split; [exact Hreg|exact Hpend]).
  - (* registration *)
    split; [|congruence]. intros i. rewrite Hcnt. intros Hi.
    destruct (decide (i = projectCount s)) as [->|];
      [rewrite Hnew; by apply Hpend|].
    rewrite Hoth by done. apply Hreg. lia.
  - (* capacity *)
    split; [exact Hreg|]. intros Hw; simpl in Hw; done.
  - (* deletion *)
    split; [|rewrite Hw', Hnu; exact Hpend]. intros i. rewrite Hcnt. intros Hi.
    destruct (decide (i < d)); [rewrite Hlo by done|rewrite Hhi by lia];
      apply Hreg; lia.
  - (* start *)
    split; [|rewrite Hw', Hnu; exact Hpend]. intros i. rewrite Hcnt. intros Hi.
    destruct (decide (i = d)) as [->|]; [rewrite Hat|rewrite Hoth, stopped_tagId by done];
      by apply Hreg.
  - (* pause *)
    split; [|rewrite Hw', Hnu; exact Hpend]. intros i. rewrite Hcnt. intros Hi.
    destruct (decide (i = d)) as [->|]; [rewrite Hat|rewrite Hoth by done];
      by apply Hreg.
  - (* unknown card *)
    split; [exact Hreg|]. intros _. exact Hadm.
Qed.

Lemma admin_reserved_boot : admin_reserved boot.
Proof. split; [intros i Hi; simpl in Hi; lia|intros Hw; done]. Qed.

(** In a run from the boot state a registered tag is not the admin tag. *)
Lemma found_not_admin inps u i :
  find (run boot inps) u = Some i → u ≠ ADMIN_UID.
Proof.
  intros Hf. destruct (find_Some _ _ _ Hf) as (Hi & <- & _).
  assert (Hinv : admin_reserved (run boot inps)).
  { apply run_invariant; [apply admin_reserved_boot|apply admin_reserved_step]. }
  by apply Hinv.
Qed.

(** ** Tracker mode and the two flags *)

Lemma mode_Idle s :
  mode s = Some Idle ↔ waitingForProjectName s = false ∧ pendingDeletion s = false.
Proof.
  unfold mode. destruct (waitingForProjectName s), (pendingDeletion s);
    intuition congruence.
Qed.


(** ** Mutual exclusion *)

(** C1. After every pass of a run from the boot state at most one registered
    project is running.  When the card of a registered project that is not
    running is scanned in Idle mode, the scanned project runs from [now] on,
    and every other registered project is not running and has the time of its
    session, if it had one, added to its accumulated time. *)
Theorem mutual_exclusion (inps : list Input) :
  Forall one_active (trace boot inps) ∧
  ∀ inp uid i,
    let s := run boot inps in
    let s' := step s inp in
    mode s = Some Idle →
    card inp = Some uid →
    find s (format_uid uid) = Some i →
    isActive (project_at s i) = false →
    isActive (project_at s' i) = true ∧
    sessionStart (project_at s' i) = now inp ∧
    ∀ k, k < projectCount s' → k ≠ i →
         isActive (project_at s' k) = false ∧
         accumulatedMs (project_at s' k) = totalMs (project_at s k) (now inp).
Proof.
  split.
  { apply trace_invariant; [apply one_active_boot|apply one_active_step]. }
  intros inp uid i s s' Hmode Hcard Hfind Hina.
  pose proof (found_not_admin _ _ _ Hfind) as Hadm.
  apply mode_Idle in Hmode as [Hw Hp].
  assert (Hwf : wf s) by apply wf_preserved, boot_wf.
  destruct (step_start s inp uid i) as (Hcnt & _ & _ & _ & _ & Hat & Hoth & _);
    [done|by left|done..|].
  fold s' in Hcnt, Hat, Hoth.
  split; [by rewrite Hat|]. split; [by rewrite Hat|].
  intros k Hk Hne. rewrite Hoth by lia.
  split; [apply stopped_inactive|].
  unfold stopped, totalMs. by destruct (isActive (project_at s k)).
Qed.

Lemma mutual_exclusion_witness :
  let s := run boot scenario_C in
  let s' := step s (scan tag_2222 2000) in
  isActive (project_at s' 1) = true ∧
  sessionStart (project_at s' 1) = 2000%Z ∧
  isActive (project_at s' 0) = false ∧
  accumulatedMs (project_at s' 0) = 2000%Z.
Proof.
  destruct (proj2 (mutual_exclusion scenario_C) (scan tag_2222 2000) tag_2222 1)
    as (Ha & Hs & Hk); try reflexivity.
  destruct (Hk 0) as [Hi Hacc]; [vm_compute; lia|lia|].
  split; [exact Ha|]. split; [exact Hs|]. split; [exact Hi|].
  rewrite Hacc. reflexivity.
Defined.

(** ** The two mode flags *)

Lemma mode_is_Some s :
  is_Some (mode s) ↔ ¬ (waitingForProjectName s = true ∧ pendingDeletion s = true).
Proof.
  unfold mode. destruct (waitingForProjectName s), (pendingDeletion s); simpl;
    split; try (intros [? [=]]); try (intros []; done); eauto; intros H; by destruct H.
Qed.

Lemma mode_step s inp :
  wf s → admin_while_waiting s inp = false →
  is_Some (mode s) → is_Some (mode (step s inp)).
Proof.
  intros Hwf Hadm. rewrite !mode_is_Some. intros Hex.
  destruct (loop_transition s inp Hwf) as [Ht _].
  revert Ht. generalize (step s inp). intros s' Ht [Hw' Hp'].
  unfold admin_while_waiting in Hadm.
  destruct Ht as
    [raw ? ? ? ? ? Hw ? ? ? ? | raw ? ? ? -> | ? ? -> | uid Hno Hc Heq ->
    | uid d ? ? ? ? ? ? Hp ? ? ? ? ? | uid ? ? ? ? ? ->
    | uid d ? ? ? ? ? ? ? Hp ? ? ? ? ? ?
    | uid d ? ? ? ? ? ? ? Hp ? ? ? ? ? | uid ? ? ? Hp ? ->];
    simpl in *; try congruence; try (by apply Hex).
  rewrite Hc, Hw' in Hadm. apply String.eqb_eq in Heq. rewrite Heq in Hadm.
  destruct Hno as [?|Hno]; [congruence|]. by rewrite Hno in Hadm.
Qed.

(** C2, as the code has it.  The two flags are independent.  They are not
    both set after any pass of a run from the boot state in which the admin
    card is never handled while a name is awaited; the admin card handled
    while a name is awaited (and deletion is not armed) sets both. *)
Theorem flags_exclusive_unless_admin_while_waiting (inps : list Input) :
  (never_admin_while_waiting boot inps = true →
   Forall (λ s, is_Some (mode s)) (trace boot inps)) ∧
  ∀ inp,
    let s := run boot inps in
    admin_while_waiting s inp = true → pendingDeletion s = false →
    waitingForProjectName (step s inp) = true ∧
    pendingDeletion (step s inp) = true.
Proof.
  split.
  - assert (Hgen : ∀ s, wf s → is_Some (mode s) →
                        never_admin_while_waiting s inps = true →
                        Forall (λ s, is_Some (mode s)) (trace s inps)).
    { induction inps as [|inp inps IH]; intros s Hwf Hm Hn; simpl in *; [done|].
      apply andb_prop in Hn as [Ha Hn]. apply negb_true_iff in Ha.
      assert (is_Some (mode (step s inp))) by (by apply mode_step).
      constructor; [done|]. apply IH; [by apply step_wf|done|done]. }
    apply Hgen; [apply boot_wf|by eexists].
  - intros inp s Hadm Hp.
    assert (Hwf : wf s) by apply wf_preserved, boot_wf.
    unfold admin_while_waiting in Hadm.
    apply andb_prop in Hadm as [Hadm Hcard]. apply andb_prop in Hadm as [Hw Hser].
    destruct (serialBuf inp) eqn:Hs; [done|].
    destruct (card inp) as [uid|] eqn:Hc; [|done].
    apply String.eqb_eq in Hcard.
    destruct (loop_transition s inp Hwf) as [Ht _].
    pick_transition Ht.
    match goal with H : step s inp = _ |- _ => rewrite H end.
    simpl. by rewrite Hp.
Qed.

Lemma flags_exclusive_witness :
  Forall (λ s, is_Some (mode s))
    (trace boot [scan tag_aabb 0; host "Demo" 500; scan admin_bytes 1000]) ∧
  (waitingForProjectName (step (run boot [scan tag_aabb 0]) (scan admin_bytes 1000)) = true ∧
   pendingDeletion (step (run boot [scan tag_aabb 0]) (scan admin_bytes 1000)) = true).
Proof.
  split.
  - apply (proj1 (flags_exclusive_unless_admin_while_waiting
      [scan tag_aabb 0; host "Demo" 500; scan admin_bytes 1000])). reflexivity.
  - apply (proj2 (flags_exclusive_unless_admin_while_waiting [scan tag_aabb 0])
      (scan admin_bytes 1000)); reflexivity.
Defined.

(** C2 as stated fails: an unknown card and then the admin card leave both
    flags set. *)
Lemma flags_both_set :
  let s := run boot [scan tag_aabb 0; scan admin_bytes 1000] in
  waitingForProjectName s = true ∧ pendingDeletion s = true ∧ mode s = None.
Proof. by vm_compute. Qed.

(** ** Deletion *)

Lemma registry_lookup s k :
  registry s !! k = if decide (k < projectCount s) then Some (project_at s k) else None.
Proof.
  unfold registry. rewrite list_lookup_fmap. case_decide.
  - by rewrite lookup_seq_lt.
  - by rewrite lookup_seq_ge by lia.
Qed.

Lemma registry_delete s inp uid i :
  wf s → no_host_line s inp → card inp = Some uid → format_uid uid ≠ ADMIN_UID →
  pendingDeletion s = true → find s (format_uid uid) = Some i →
  registry (step s inp) = delete i (registry s).
Proof.
  intros Hwf Hno Hcard Hadm Hp Hfind.
  destruct (step_delete s inp uid i) as (Hcnt & _ & _ & _ & _ & Hlo & Hhi); try done.
  destruct (find_Some _ _ _ Hfind) as (Hi & _).
  apply list_eq. intros k.
  rewrite list_lookup_delete, !registry_lookup, Hcnt.
  repeat case_decide; try lia; f_equal; [by apply Hlo|apply Hhi; lia].
Qed.

(** C4. When the card of the registered project at index [i] is scanned while
    deletion is armed, [projectCount] drops by one, the entries before [i]
    keep their place and the entries after [i] move down by one place, each
    with its five fields unchanged: the registry is the old one without its
    entry [i]. *)
Theorem deletion_compacts (inps : list Input) (inp : Input) (uid : list byte) (i : nat) :
  let s := run boot inps in
  let s' := step s inp in
  no_host_line s inp → card inp = Some uid →
  pendingDeletion s = true → find s (format_uid uid) = Some i →
  S (projectCount s') = projectCount s ∧
  (∀ k, k < i → project_at s' k = project_at s k) ∧
  (∀ k, i ≤ k < projectCount s' → project_at s' k = project_at s (S k)) ∧
  registry s' = delete i (registry s).
Proof.
  intros s s' Hno Hcard Hp Hfind.
  assert (Hwf : wf s) by apply wf_preserved, boot_wf.
  pose proof (found_not_admin _ _ _ Hfind) as Hadm.
  destruct (step_delete s inp uid i) as (Hcnt & _ & _ & _ & _ & Hlo & Hhi); try done.
  destruct (find_Some _ _ _ Hfind) as (Hi & _).
  fold s' in Hcnt, Hlo, Hhi.
  split; [lia|]. split; [done|]. split; [intros k Hk; apply Hhi; lia|].
  by eapply registry_delete.
Qed.

Lemma deletion_compacts_witness :
  let s := run boot scenario_ABC in
  let s' := step s (scan tag_1111 300) in
  projectCount s' = 2 ∧
  name <$> registry s = ["A"; "B"; "C"] ∧
  name <$> registry s' = ["B"; "C"] ∧
  project_at s' 1 = project_at s 2.
Proof.
  intros s s'.
  destruct (deletion_compacts scenario_ABC (scan tag_1111 300) tag_1111 0)
    as (Hc & Hlo & Hhi & Hreg).
  - by right.
  - reflexivity.
  - reflexivity.
  - reflexivity.
  - fold s s' in Hc, Hhi, Hreg.
    assert (Hcs : projectCount s = 3) by reflexivity.
    split; [lia|]. split; [reflexivity|]. split; [by rewrite Hreg|].
    apply Hhi. lia.
Defined.

Lemma uadd_usub_exact acc start t :
  (0 ≤ acc)%Z → (start ≤ t)%Z → (acc + (t - start) < 2 ^ 32)%Z →
  uadd acc (usub t start) = (acc + (t - start))%Z.
Proof.
  intros Ha Ht Hsum. unfold uadd, usub, wrap32.
  rewrite (Z.mod_small (t - start)) by lia. by rewrite Z.mod_small by lia.
Qed.

Lemma uadd_usub_small acc start t :
  (0 ≤ acc ≤ start)%Z → (start ≤ t < 2 ^ 32)%Z →
  uadd acc (usub t start) = (acc + (t - start))%Z.
Proof. intros Ha Ht. apply uadd_usub_exact; lia. Qed.


Lemma loop_no_host_line s inp :
  no_host_line s inp →
  loop s inp =
  match card inp with
  | Some uid =>
      let '(s1, out, returned) := handle_card s uid (now inp) in
      if returned then (s1, out) else (s1, out ++ display s1 (nowDisplay inp))
  | None => (s, display s (nowDisplay inp))
  end.
Proof.
  unfold loop. intros [Hw|Hs]; [by rewrite Hw|].
  rewrite Hs. by destruct (waitingForProjectName s).
Qed.

Lemma loop_delete s inp uid i :
  no_host_line s inp → card inp = Some uid → format_uid uid ≠ ADMIN_UID →
  pendingDeletion s = true → find s (format_uid uid) = Some i →
  loop s inp =
  (fst (delete_project s i (now inp)),
   [SerialPrintln ("RFID erkannt: " +:+ format_uid uid)] ++
   snd (delete_project s i (now inp))).
Proof.
  intros Hno Hcard Hadm Hp Hfind. rewrite loop_no_host_line, Hcard by done.
  unfold handle_card. apply String.eqb_neq in Hadm. rewrite Hadm, Hp, Hfind.
  by destruct (delete_project s i (now inp)).
Qed.



(** ** Registration *)

(** C6, as the code has it.  A host line that arrives while a name is awaited
    and the registry holds [MAX_PROJECTS] entries changes nothing but
    [waitingForProjectName], which becomes false: the arrays, [projectCount]
    and the other variables, [pendingDeletion] among them, are as before, and
    the host gets the capacity message.  The mode afterwards is Idle when
    deletion was not armed and DeletionArmed when it was. *)
Theorem capacity_rejected (s : State) (inp : Input) (raw : string) :
  waitingForProjectName s = true → serialBuf inp = Some raw →
  projectCount s = MAX_PROJECTS →
  let s' := step s inp in
  loop s inp =
    (set_waitingForProjectName false s,
     [SerialPrintln "Max. Anzahl erreicht!"; LcdClear; LcdPrint "Max erreicht!";
      Delay 2000; LcdClear; LcdPrint "Projekt?"]) ∧
  knownUIDs s' = knownUIDs s ∧
  projectNames s' = projectNames s ∧
  projectActive s' = projectActive s ∧
  projectStartTime s' = projectStartTime s ∧
  projectAccumulatedTime s' = projectAccumulatedTime s ∧
  projectCount s' = projectCount s ∧
  pendingDeletion s' = pendingDeletion s ∧
  newUID s' = newUID s ∧
  displayFreezeUntil s' = displayFreezeUntil s ∧
  waitingForProjectName s' = false ∧
  mode s' = Some (if pendingDeletion s then DeletionArmed else Idle).
Proof.
  intros Hw Hser Hcnt s'.
  assert (Hloop : loop s inp =
    (set_waitingForProjectName false s,
     [SerialPrintln "Max. Anzahl erreicht!"; LcdClear; LcdPrint "Max erreicht!";
      Delay 2000; LcdClear; LcdPrint "Projekt?"])).
  { unfold loop, host_line. rewrite Hw, Hser, Hcnt. reflexivity. }
  unfold s', step. rewrite Hloop. simpl. repeat split; try done.
  unfold mode. simpl. by destruct (pendingDeletion s).
Qed.

Lemma capacity_rejected_witness :
  let s := run boot scenario_E in
  projectCount s = 10 ∧
  projectCount (step s (host "Late" 100)) = 10 ∧
  registry (step s (host "Late" 100)) = registry s ∧
  mode (step s (host "Late" 100)) = Some Idle.
Proof.
  intros s.
  destruct (capacity_rejected s (host "Late" 100) "Late")
    as (_ & Hu & Hn & Ha & Hs & Hacc & Hc & Hp & _ & _ & Hw & Hm); try reflexivity.
  split; [reflexivity|]. split; [by rewrite Hc|].
  split; [|by rewrite Hm].
  unfold registry, project_at. by rewrite Hu, Hn, Ha, Hs, Hacc, Hc.
Defined.

(** C6 as stated fails: with the registry full, an unknown card, the admin
    card and then the host line leave deletion armed, so the mode after the
    rejected registration is not Idle. *)
Lemma capacity_rejected_while_armed :
  let s := run boot (scenario_E ++ [scan admin_bytes 50]) in
  waitingForProjectName s = true ∧
  projectCount s = MAX_PROJECTS ∧
  waitingForProjectName (step s (host "Late" 100)) = false ∧
  mode (step s (host "Late" 100)) = Some DeletionArmed ∧
  mode (step s (host "Late" 100)) ≠ Some Idle.
Proof. by vm_compute. Qed.

Lemma find_None_intro s u :
  (∀ i, i < projectCount s → tagId (project_at s i) ≠ u) → find s u = None.
Proof.
  intros Hno. destruct (find s u) as [i|] eqn:Hf; [|done].
  destruct (find_Some _ _ _ Hf) as (Hi & Htag & _). by destruct (Hno i Hi).
Qed.

Lemma unique_tags_NoDup s : unique_tags s → NoDup (tagId <$> registry s).
Proof.
  intros Huniq. apply NoDup_alt. intros i j u.
  rewrite !list_lookup_fmap, !registry_lookup.
  repeat case_decide; simpl; try done.
  intros [= Hi] [= Hj]. apply Huniq; [done|done|]. simpl. congruence.
Qed.

(** C7. In every state of a run from the boot state the registered tags are
    pairwise different, and while a name is awaited the search for the pending
    tag finds nothing: the registration that the host line completes is never
    that of a tag the search would find. *)
Theorem registered_tags_unique (inps : list Input) :
  let s := run boot inps in
  NoDup (tagId <$> registry s) ∧
  (waitingForProjectName s = true → find s (newUID s) = None) ∧
  ∀ inp, NoDup (tagId <$> registry (step s inp)).
Proof.
  intros s.
  assert (Hinv : tags_inv s).
  { apply run_invariant; [apply tags_inv_boot|apply tags_inv_step]. }
  assert (Hwf : wf s) by apply wf_preserved, boot_wf.
  split; [apply unique_tags_NoDup, Hinv|].
  split; [intros Hw; apply find_None_intro; by apply Hinv|].
  intros inp. apply unique_tags_NoDup. by apply tags_inv_step.
Qed.

Lemma registered_tags_unique_witness :
  find (run boot [scan tag_1111 0; host "A" 0; scan tag_aabb 0]) "aa:bb" = None.
Proof.
  apply (proj1 (proj2 (registered_tags_unique
    [scan tag_1111 0; host "A" 0; scan tag_aabb 0]))). reflexivity.
Defined.

(** The serial branch itself does not search the registry: in a state in which
    the pending tag were registered, which no run from the boot state reaches,
    the host line would add a second entry with that tag. *)
Remark host_line_does_not_search :
  let s := set_waitingForProjectName true (run boot [scan tag_1111 0; host "A" 0]) in
  tagId <$> registry (step s (host "B" 0)) = ["11:11"; "11:11"].
Proof. reflexivity. Qed.

(** ** The display freeze *)

Ltac in_list := apply list_elem_of_In; simpl; tauto.

(** C8, as the code has it.  Only the passes that start or pause a project
    set the freeze deadline, to [now + 3000] (modulo [2^32]).  The passes that
    show one of the other five confirmations leave the deadline as it is and
    block in [delay] instead, for 3000 ms (project added, admin toggle,
    deletion) or 2000 ms (capacity exceeded, not found); a pass without a
    confirmation leaves the deadline as it is. *)
Theorem freeze_deadline_set_by_start_and_pause_only (s : State) (inp : Input) :
  let s' := step s inp in
  let out := snd (loop s inp) in
  match confirmation_of s inp with
  | Some c =>
      shown c out ∧
      match confirmation_delay c with
      | None => displayFreezeUntil s' = uadd (now inp) 3000
      | Some ms => displayFreezeUntil s' = displayFreezeUntil s ∧ Delay ms ∈ out
      end
  | None => displayFreezeUntil s' = displayFreezeUntil s
  end.
Proof.
  intros s' out. unfold confirmation_of.
  assert (Hcard : no_host_line s inp →
    match
      match card inp with
      | None => None
      | Some uid =>
          if String.eqb (format_uid uid) ADMIN_UID then Some AdminToggled
          else if pendingDeletion s then
            match find s (format_uid uid) with
            | Some _ => Some ProjectDeleted
            | None => Some NotFound
            end
          else
            match find s (format_uid uid) with
            | Some i => if (projectActive s !!! i : bool)
                        then Some ProjectPaused else Some ProjectStarted
            | None => None
            end
      end
    with
    | Some c =>
        shown c out ∧
        match confirmation_delay c with
        | None => displayFreezeUntil s' = uadd (now inp) 3000
        | Some ms => displayFreezeUntil s' = displayFreezeUntil s ∧ Delay ms ∈ out
        end
    | None => displayFreezeUntil s' = displayFreezeUntil s
    end).
  { intros Hno. unfold s', out, step. rewrite loop_no_host_line by done.
    destruct (card inp) as [uid|]; [|done].
    unfold handle_card.
    destruct (String.eqb (format_uid uid) ADMIN_UID).
    { unfold admin_card, lcd_prompt. simpl.
      destruct (pendingDeletion s); simpl; (split; [|split; [done|in_list]]).
      - exists "Abbruch". split; in_list.
      - exists "Loeschmodus an". split; in_list. }
    destruct (pendingDeletion s) eqn:Hp.
    - destruct (find s (format_uid uid)) as [i|] eqn:Hfind.
      + destruct (delete_project_fields s i (now inp))
          as (_ & _ & _ & _ & _ & _ & _ & _ & _ & Hf).
        unfold delete_project, lcd_prompt in *. simpl in *.
        split; [exists "geloescht"; split; in_list|]. split; [done|in_list].
      + unfold not_found, lcd_prompt. simpl.
        split; [exists "Nicht gefunden"; split; in_list|]. split; [done|in_list].
    - destruct (find s (format_uid uid)) as [i|] eqn:Hfind; [|done].
      unfold known_card.
      destruct (projectActive s !!! i); cbn [negb].
      + unfold pause_project. simpl.
        split; [exists "Pausiert"; split; in_list|done].
      + unfold start_project. simpl.
        split; [exists "Gestartet"; split; in_list|done]. }
  destruct (waitingForProjectName s) eqn:Hw; [|apply Hcard; by left].
  destruct (serialBuf inp) as [raw|] eqn:Hser; [|apply Hcard; by right].
  unfold s', out, step, loop, host_line, lcd_prompt. rewrite Hw, Hser.
  destruct (projectCount s <? MAX_PROJECTS); simpl.
  - split; [exists "Projekt hinzugefuegt:"; split; in_list|]. split; [done|in_list].
  - split; [exists "Max erreicht!"; split; in_list|]. split; [done|in_list].
Qed.

Lemma freeze_deadline_witness :
  let s := run boot [scan tag_aabb 0; host "Demo" 0] in
  displayFreezeUntil (step s (scan tag_aabb 1000)) = 4000%Z ∧
  displayFreezeUntil (step s (scan admin_bytes 1000)) = 0%Z ∧
  Delay 3000 ∈ snd (loop s (scan admin_bytes 1000)).
Proof.
  intros s.
  pose proof (freeze_deadline_set_by_start_and_pause_only s (scan tag_aabb 1000)) as H1.
  pose proof (freeze_deadline_set_by_start_and_pause_only s (scan admin_bytes 1000)) as H2.
  simpl in H1, H2. destruct H1 as [_ H1], H2 as (_ & H2 & H3).
  split; [exact H1|]. split; [exact H2|exact H3].
Defined.

(** C8 as stated fails: the admin card shows its confirmation and the freeze
    deadline stays 0. *)
Lemma admin_toggle_sets_no_deadline :
  let s' := step boot (scan admin_bytes 5000) in
  let out := snd (loop boot (scan admin_bytes 5000)) in
  LcdPrint "Loeschmodus an" ∈ out ∧
  displayFreezeUntil s' = 0%Z ∧
  displayFreezeUntil s' ≠ (5000 + 3000)%Z.
Proof. split; [in_list|]. split; [reflexivity|]. by vm_compute. Qed.

(** ** A card scanned while a name is awaited *)

(** C9, as the code has it.  In a pass that starts with
    [waitingForProjectName] set and finds no host line, a scanned card goes
    through the card-handling block like any other.  The admin card toggles
    [pendingDeletion].  With deletion not armed, the card of a registered
    project starts or pauses it, and an unknown card replaces [newUID] while
    [waitingForProjectName] stays set.  With deletion armed, the card of a
    registered project deletes it, and an unknown card disarms deletion and
    leaves [newUID] as it is. *)
Theorem card_while_waiting (inps : list Input) (inp : Input) (uid : list byte) :
  let s := run boot inps in
  waitingForProjectName s = true → serialBuf inp = None →
  card inp = Some uid →
  let s' := step s inp in
  let u := format_uid uid in
  s' = fst (fst (handle_card s uid (now inp))) ∧
  waitingForProjectName s' = true ∧
  (u = ADMIN_UID →
   pendingDeletion s' = negb (pendingDeletion s) ∧ newUID s' = newUID s) ∧
  (u ≠ ADMIN_UID → pendingDeletion s = false →
   match find s u with
   | Some i =>
       project_at s' i =
         (if isActive (project_at s i) then paused (now inp) (project_at s i)
          else started (now inp) (project_at s i)) ∧
       newUID s' = newUID s
   | None => newUID s' = u
   end) ∧
  (u ≠ ADMIN_UID → pendingDeletion s = true →
   pendingDeletion s' = false ∧ newUID s' = newUID s ∧
   match find s u with
   | Some i => registry s' = delete i (registry s)
   | None => registry s' = registry s
   end).
Proof.
  intros s Hw Hser Hcard s' u. subst s' u.
  assert (Hwf : wf s) by apply wf_preserved, boot_wf.
  assert (Hno : no_host_line s inp) by (by right).
  split.
  { unfold step. rewrite loop_no_host_line, Hcard by done.
    by destruct (handle_card s uid (now inp)) as [[s1 out] [|]]. }
  destruct (loop_transition s inp Hwf) as [Ht _].
  split; [|split; [|split]].
  - pick_transition Ht;
      match goal with H : step s inp = _ |- _ => by rewrite H end.
  - intros Hadm. pick_transition Ht.
    match goal with H : step s inp = _ |- _ => by rewrite H end.
  - intros Hadm Hp.
    destruct (find s (format_uid uid)) as [i|] eqn:Hfind.
    + destruct (isActive (project_at s i)) eqn:Hact.
      * destruct (step_pause s inp uid i) as (_ & _ & _ & Hnu & _ & Hat & _); done.
      * destruct (step_start s inp uid i) as (_ & _ & _ & Hnu & _ & Hat & _); done.
    + pick_transition Ht.
      match goal with H : step s inp = _ |- _ => by rewrite H end.
  - intros Hadm Hp.
    destruct (find s (format_uid uid)) as [i|] eqn:Hfind.
    + destruct (step_delete s inp uid i) as (_ & Hpd & _ & Hnu & _); try done.
      split; [done|]. split; [done|]. by eapply registry_delete.
    + pick_transition Ht.
      match goal with H : step s inp = _ |- _ => by rewrite H end.
Qed.

Lemma card_while_waiting_witness :
  let inps := [scan tag_1111 0; host "A" 0; scan tag_aabb 100] in
  let s := run boot inps in
  waitingForProjectName s = true ∧
  isActive (project_at (step s (scan tag_1111 1000)) 0) = true ∧
  newUID (step s (scan tag_2222 1000)) = "22:22" ∧
  pendingDeletion (step s (scan admin_bytes 1000)) = true ∧
  registry (step (run boot scenario_armed_while_waiting) (scan tag_1111 1000)) = [].
Proof.
  intros inps s. subst s.
  destruct (card_while_waiting inps (scan tag_1111 1000) tag_1111)
    as (_ & _ & _ & H1 & _); try reflexivity.
  destruct (card_while_waiting inps (scan tag_2222 1000) tag_2222)
    as (_ & _ & _ & H2 & _); try reflexivity.
  destruct (card_while_waiting inps (scan admin_bytes 1000) admin_bytes)
    as (_ & _ & H3 & _); try reflexivity.
  destruct (card_while_waiting scenario_armed_while_waiting
              (scan tag_1111 1000) tag_1111)
    as (_ & _ & _ & _ & H4); try reflexivity.
  split; [reflexivity|].
  split; [destruct H1 as [H1 _]; [by vm_compute|reflexivity|]; by rewrite H1|].
  split; [by apply H2|].
  split; [by apply H3|].
  destruct H4 as (_ & _ & H4); [by vm_compute|reflexivity|exact H4].
Defined.

(** C9 as stated fails: with deletion armed while a name is awaited, the card
    of a registered project is not started or paused but deleted, and an
    unknown card does not replace the pending tag. *)
Lemma card_while_waiting_and_armed :
  let s := run boot scenario_armed_while_waiting in
  waitingForProjectName s = true ∧
  find s "11:11" = Some 0 ∧
  projectCount (step s (scan tag_1111 1000)) = 0 ∧
  find (step s (scan tag_1111 1000)) "11:11" = None ∧
  find s "22:22" = None ∧
  newUID (step s (scan tag_2222 1000)) = "aa:bb".
Proof. by vm_compute. Qed.

(** ** The project name *)

Lemma append_cons c a b : String c a +:+ b = String c (a +:+ b).
Proof. reflexivity. Qed.

Lemma append_nil b : "" +:+ b = b.
Proof. reflexivity. Qed.

Lemma trim_left_split s :
  ∃ pre, s = pre +:+ trim_left s ∧ all_space pre = true.
Proof.
  induction s as [|c r IH]; simpl; [by exists ""|].
  destruct (isspace c) eqn:Hc; [|by exists ""].
  destruct IH as (pre & Heq & Hpre). exists (String c pre). simpl.
  rewrite append_cons. split; [by f_equal|by rewrite Hc].
Qed.

Lemma trim_left_start s : starts_with_space (trim_left s) = false.
Proof.
  induction s as [|c r IH]; simpl; [done|].
  by destruct (isspace c) eqn:Hc.
Qed.

Lemma trim_right_split s :
  ∃ post, s = trim_right s +:+ post ∧ all_space post = true.
Proof.
  induction s as [|c r IH]; simpl; [by exists ""|].
  destruct IH as (post & Heq & Hpost).
  destruct (trim_right r) as [|c' r'] eqn:Hr; simpl in *.
  - rewrite append_nil in Heq. destruct (isspace c) eqn:Hc.
    + exists (String c post). simpl. rewrite append_nil.
      split; [by f_equal|by rewrite Hc].
    + exists post. rewrite append_cons, append_nil. split; [by f_equal|done].
  - exists post. rewrite append_cons. split; [by f_equal|done].
Qed.

Lemma trim_right_end s : ends_with_space (trim_right s) = false.
Proof.
  induction s as [|c r IH]; simpl; [done|].
  destruct (trim_right r) as [|c' r'] eqn:Hr.
  - by destruct (isspace c) eqn:Hc; simpl.
  - exact IH.
Qed.

Lemma trim_right_start s :
  starts_with_space s = false → starts_with_space (trim_right s) = false.
Proof.
  destruct s as [|c r]; simpl; [done|]. intros Hc.
  destruct (trim_right r); [by rewrite Hc|done].
Qed.

Lemma trim_left_all_space s : all_space s = true → trim_left s = "".
Proof.
  induction s as [|c r IH]; simpl; [done|].
  intros [Hc Hr]%andb_prop. rewrite Hc. by apply IH.
Qed.

Lemma contains_app t a b : contains t (a +:+ b) = contains t a || contains t b.
Proof.
  induction a as [|c r IH]; [done|].
  rewrite append_cons. simpl. by rewrite IH, orb_assoc.
Qed.

Lemma readStringUntil_contains t s : contains t (readStringUntil t s) = false.
Proof.
  induction s as [|c r IH]; simpl; [done|].
  destruct (Ascii.eqb c t) eqn:Hc; simpl; [done|]. by rewrite Hc.
Qed.

Lemma readStringUntil_terminated t body rest :
  contains t body = false →
  readStringUntil t (body +:+ String t rest) = body.
Proof.
  induction body as [|c r IH]; intros Hb.
  - rewrite append_nil. simpl. by rewrite Ascii.eqb_refl.
  - simpl in Hb. apply orb_false_elim in Hb as [Hc Hr].
    rewrite append_cons. simpl. rewrite Hc. by rewrite IH.
Qed.

Lemma trim_split s :
  ∃ pre post, s = pre +:+ trim s +:+ post ∧ all_space pre = true ∧ all_space post = true.
Proof.
  destruct (trim_left_split s) as (pre & Hs & Hpre).
  destruct (trim_right_split (trim_left s)) as (post & Hl & Hpost).
  exists pre, post. unfold trim. by rewrite <- Hl, <- Hs.
Qed.

(** C10. The name stored by a registration is the host line up to its line
    terminator without the white space at its two ends: the line is the name
    between two runs of white space, and the name neither starts nor ends
    with white space nor contains the terminator.  A line of white space only
    registers the project all the same, with the empty name. *)
Theorem host_name_trimmed (inps : list Input) (inp : Input) (raw : string) :
  let s := run boot inps in
  waitingForProjectName s = true → serialBuf inp = Some raw →
  projectCount s < MAX_PROJECTS →
  let line := readStringUntil newline raw in
  let s' := step s inp in
  let stored := name (project_at s' (projectCount s)) in
  projectCount s' = S (projectCount s) ∧
  tagId (project_at s' (projectCount s)) = newUID s ∧
  (∀ body rest, raw = body +:+ String newline rest →
                contains newline body = false → line = body) ∧
  (∃ pre post, line = pre +:+ stored +:+ post ∧
               all_space pre = true ∧ all_space post = true) ∧
  starts_with_space stored = false ∧
  ends_with_space stored = false ∧
  contains newline stored = false ∧
  (all_space line = true → stored = "").
Proof.
  intros s Hw Hser Hlt line s' stored.
  assert (Hwf : wf s) by apply wf_preserved, boot_wf.
  destruct (step_add s inp raw) as (Hcnt & _ & _ & _ & _ & _ & Hnew); try done.
  assert (Hst : stored = trim line) by (unfold stored, s'; by rewrite Hnew).
  split; [done|]. split; [unfold s'; by rewrite Hnew|].
  split; [intros body rest -> Hb; by apply readStringUntil_terminated|].
  rewrite Hst. split; [apply trim_split|].
  split; [apply trim_right_start, trim_left_start|].
  split; [apply trim_right_end|]. split.
  - destruct (trim_split line) as (pre & post & Heq & _).
    pose proof (readStringUntil_contains newline raw) as Hc. fold line in Hc.
    rewrite Heq, !contains_app in Hc.
    apply orb_false_elim in Hc as [_ Hc]. by apply orb_false_elim in Hc as [Hc _].
  - intros Hall. unfold trim. by rewrite trim_left_all_space.
Qed.

Lemma host_name_trimmed_witness :
  let s := run boot [scan tag_aabb 0] in
  let crlf := String carriage_return (String newline "") in
  name (project_at (step s (host ("  Demo " +:+ crlf +:+ "next") 100)) 0) = "Demo" ∧
  name (project_at (step s (host ("   " +:+ crlf) 100)) 0) = "" ∧
  projectCount (step s (host ("   " +:+ crlf) 100)) = 1.
Proof.
  intros s crlf.
  destruct (host_name_trimmed [scan tag_aabb 0]
              (host ("  Demo " +:+ crlf +:+ "next") 100) ("  Demo " +:+ crlf +:+ "next"))
    as (_ & _ & _ & H1 & _); try reflexivity; [vm_compute; lia|].
  destruct (host_name_trimmed [scan tag_aabb 0]
              (host ("   " +:+ crlf) 100) ("   " +:+ crlf))
    as (H2 & _ & _ & _ & _ & _ & _ & H3); try reflexivity; [vm_compute; lia|].
  split; [reflexivity|]. split; [by apply H3|exact H2].
Defined.

(** ** Time accounting *)

Lemma time_inv_mono t t' s : time_inv t s → (t ≤ t')%Z → time_inv t' s.
Proof.
  intros [H0 Hk] Hle. split; [lia|]. intros k Hlt.
  destruct (Hk k Hlt) as [Ha Hs]. split; [lia|]. intros Hact.
  specialize (Hs Hact). lia.
Qed.

Lemma time_inv_entry t t' p :
  (0 ≤ t)%Z → (t ≤ t' < 2 ^ 32)%Z →
  (0 ≤ accumulatedMs p ≤ t)%Z →
  (isActive p = true → (accumulatedMs p ≤ sessionStart p ≤ t)%Z) →
  (0 ≤ accumulatedMs (stopped t' p) ≤ t')%Z ∧
  (0 ≤ accumulatedMs (paused t' p) ≤ t' ∨ isActive p = false)%Z ∧
  (accumulatedMs (started t' p) ≤ sessionStart (started t' p) ≤ t')%Z.
Proof.
  intros H0 Ht Ha Hs. unfold stopped, paused, started; simpl.
  destruct (isActive p) eqn:Hact; simpl.
  - specialize (Hs eq_refl). rewrite uadd_usub_small by lia. lia.
  - lia.
Qed.

Lemma time_inv_step t s inp :
  wf s → time_inv t s → (t ≤ now inp < 2 ^ 32)%Z → time_inv (now inp) (step s inp).
Proof.
  intros Hwf Hinv Hnow.
  pose proof (time_inv_mono _ _ _ Hinv (proj1 Hnow)) as Hinv'.
  destruct Hinv as [H0 Hk]. destruct Hinv' as [H0' Hk'].
  destruct (loop_transition s inp Hwf) as [Ht _].
  revert Ht. generalize (step s inp). intros s' Ht.
  destruct Ht as
    [raw Hw ? ? Hcnt ? Hw' ? ? Hoth Hnew | raw ? ? ? -> | ? ? -> | uid ? ? ? ->
    | uid d ? ? ? ? ? Hcnt ? Hw' Hnu ? Hlo Hhi | uid ? ? ? ? ? ->
    | uid d ? ? ? ? ? Hina Hcnt ? Hw' Hnu ? Hat Hoth ?
    | uid d ? ? ? ? Hfind Hact Hcnt ? Hw' Hnu ? Hat Hoth | uid ? ? ? ? Hfind ->];
    try (split; [exact H0'|exact Hk']).
  - (* registration *)
    split; [done|]. intros k. rewrite Hcnt. intros Hlt.
    destruct (decide (k = projectCount s)) as [->|].
    { rewrite Hnew; simpl. split; [lia|done]. }
    rewrite Hoth by done. apply Hk'. lia.
  - (* deletion *)
    split; [done|]. intros k. rewrite Hcnt. intros Hlt.
    destruct (decide (k < d)); [rewrite Hlo by done|rewrite Hhi by lia];
      apply Hk'; lia.
  - (* start *)
    split; [done|]. intros k. rewrite Hcnt. intros Hlt.
    destruct (Hk k Hlt) as [Ha Hs].
    destruct (time_inv_entry t (now inp) (project_at s k)) as (Hst & _ & Hsd); try done.
    destruct (decide (k = d)) as [->|].
    + rewrite Hat. split; [simpl in *; lia|done].
    + rewrite Hoth by done. split; [done|]. by rewrite stopped_inactive.
  - (* pause *)
    split; [done|]. intros k. rewrite Hcnt. intros Hlt.
    destruct (decide (k = d)) as [->|]; [|rewrite Hoth by done; by apply Hk'].
    destruct (Hk d Hlt) as [Ha Hs].
    destruct (time_inv_entry t (now inp) (project_at s d)) as (_ & [Hp|Hp] & _);
      try done; [|congruence].
    rewrite Hat. split; [done|]. simpl. done.
Qed.

Lemma time_inv_boot : time_inv 0 boot.
Proof. split; [done|]. intros k Hk. simpl in Hk. lia. Qed.

Lemma time_inv_run inps :
  ∀ t s, wf s → time_inv t s → clock_ok t inps →
         time_inv (last_now t inps) (run s inps) ∧ (last_now t inps < 2 ^ 32 ∨ inps = [])%Z.
Proof.
  induction inps as [|inp inps IH]; intros t s Hwf Hinv Hclk; simpl in *.
  - split; [done|by right].
  - destruct Hclk as [Hnow Hclk].
    destruct (IH (now inp) (step s inp)) as [Hi Hb];
      [by apply step_wf|by eapply time_inv_step|done|].
    split; [done|]. left. destruct Hb as [Hb| ->]; [done|]. simpl. lia.
Qed.

(** How one pass changes the entry of a tag that is registered before and
    after it. *)
Lemma track s inp u i j :
  wf s → tags_inv s →
  find s u = Some i → find (step s inp) u = Some j →
  let p := project_at s i in
  let p' := project_at (step s inp) j in
  p' = p ∨
  (isActive p = true ∧ p' = paused (now inp) p) ∨
  (isActive p = false ∧ p' = started (now inp) p).
Proof.
  intros Hwf [Huniq Hfresh] Hfi Hfj.
  destruct (find_Some _ _ _ Hfi) as (Hi & Hti & _).
  destruct (find_Some _ _ _ Hfj) as (Hj & Htj & _).
  change (tagId (project_at s i) = u) in Hti.
  change (tagId (project_at (step s inp) j) = u) in Htj.
  clear Hfi Hfj.
  destruct (loop_transition s inp Hwf) as [Ht _].
  revert Ht Hj Htj. generalize (step s inp). intros s' Ht Hj Htj. simpl.
  assert (Hsame : projectCount s' = projectCount s →
                  (∀ k, project_at s' k = project_at s k) →
                  project_at s' j = project_at s i).
  { intros Hc Hk. rewrite Hk. f_equal. apply Huniq; [congruence|done|].
    rewrite <- Hk. congruence. }
  destruct Ht as
    [raw Hw ? ? Hcnt ? Hw' ? ? Hoth Hnew | raw ? ? ? -> | ? ? -> | uid ? ? ? ->
    | uid d ? ? ? ? ? Hcnt ? Hw' Hnu ? Hlo Hhi | uid ? ? ? ? ? ->
    | uid d ? ? ? ? ? Hina Hcnt ? Hw' Hnu ? Hat Hoth ?
    | uid d ? ? ? ? Hfind Hact Hcnt ? Hw' Hnu ? Hat Hoth | uid ? ? ? ? Hfind ->];
    try (left; by apply Hsame).
  - (* registration *)
    left. destruct (decide (j = projectCount s)) as [->|Hne].
    + rewrite Hnew in Htj. simpl in Htj. destruct (Hfresh Hw i Hi). congruence.
    + rewrite Hoth in Htj |- * by done. f_equal.
      apply Huniq; [lia|done|congruence].
  - (* deletion *)
    left. rewrite Hcnt in Hj.
    destruct (decide (j < d)).
    + rewrite Hlo in Htj |- * by done. f_equal. apply Huniq; [lia|done|congruence].
    + rewrite Hhi in Htj |- * by lia. f_equal. apply Huniq; [lia|done|congruence].
  - (* start *)
    rewrite Hcnt in Hj.
    assert (j = i) as ->.
    { apply Huniq; [done|done|]. rewrite <- Htj in Hti. rewrite Hti.
      destruct (decide (j = d)) as [->|]; [by rewrite Hat|].
      by rewrite Hoth, stopped_tagId. }
    destruct (decide (i = d)) as [->|]; [right; right; by rewrite Hat|].
    rewrite Hoth by done. unfold stopped.
    destruct (isActive (project_at s i)) eqn:Hact'; [right; left; by split|by left].
  - (* pause *)
    rewrite Hcnt in Hj.
    assert (j = i) as ->.
    { apply Huniq; [done|done|]. rewrite <- Htj in Hti. rewrite Hti.
      destruct (decide (j = d)) as [->|]; [by rewrite Hat|by rewrite Hoth]. }
    destruct (decide (i = d)) as [->|]; [right; left; by rewrite Hat|].
    left. by apply Hoth.
Qed.

Lemma totalMs_paused p t t' :
  isActive p = true → totalMs (paused t p) t' = totalMs p t.
Proof. intros Hact. unfold totalMs. simpl. by rewrite Hact. Qed.

Lemma accumulatedMs_paused p t :
  (0 ≤ accumulatedMs p ≤ sessionStart p)%Z → (sessionStart p ≤ t < 2 ^ 32)%Z →
  (accumulatedMs p ≤ accumulatedMs (paused t p))%Z.
Proof. intros Ha Ht. simpl. rewrite uadd_usub_small by lia. lia. Qed.

(** C3.  Along a run from the boot state whose clock readings do not decrease
    and stay below [2^32]: the total time of every registered project does not
    decrease as the time of reading it grows; a project that a pass pauses has,
    at any later reading, the total it had at the time of that pass; and no
    pass lowers the accumulated time of a project that is registered before
    and after it. *)
Theorem time_conservation (inps : list Input) (inp : Input) :
  clock_ok 0 inps →
  (last_now 0 inps ≤ now inp < 2 ^ 32)%Z →
  let s := run boot inps in
  let s' := step s inp in
  (∀ k t1 t2,
     k < projectCount s → (last_now 0 inps ≤ t1)%Z → (t1 ≤ t2 < 2 ^ 32)%Z →
     (totalMs (project_at s k) t1 ≤ totalMs (project_at s k) t2)%Z) ∧
  (∀ u i j,
     find s u = Some i → find s' u = Some j →
     isActive (project_at s i) = true → isActive (project_at s' j) = false →
     ∀ t', totalMs (project_at s' j) t' = totalMs (project_at s i) (now inp)) ∧
  (∀ u i j,
     find s u = Some i → find s' u = Some j →
     (accumulatedMs (project_at s i) ≤ accumulatedMs (project_at s' j))%Z).
Proof.
  intros Hclk Hnow s s'. subst s'.
  assert (Hwf : wf s) by apply wf_preserved, boot_wf.
  assert (Htags : tags_inv s).
  { apply run_invariant; [apply tags_inv_boot|apply tags_inv_step]. }
  destruct (time_inv_run inps 0 boot boot_wf time_inv_boot Hclk) as [[H0 Hk] _].
  fold s in Hk.
  split; [|split].
  - intros k t1 t2 Hlt Ht1 Ht2. destruct (Hk k Hlt) as [Ha Hs].
    unfold totalMs. destruct (isActive (project_at s k)); [|lia].
    specialize (Hs eq_refl). rewrite !uadd_usub_small by lia. lia.
  - intros u i j Hfi Hfj Hact Hina t'.
    destruct (track s inp u i j Hwf Htags Hfi Hfj) as [Heq|[[_ Heq]|[Hc _]]].
    + rewrite Heq in Hina. congruence.
    + rewrite Heq. by apply totalMs_paused.
    + congruence.
  - intros u i j Hfi Hfj.
    destruct (find_Some _ _ _ Hfi) as (Hi & _). destruct (Hk i Hi) as [Ha Hs].
    destruct (track s inp u i j Hwf Htags Hfi Hfj) as [Heq|[[Hact Heq]|[_ Heq]]];
      rewrite Heq; [lia| |simpl; lia].
    specialize (Hs Hact). apply accumulatedMs_paused; lia.
Qed.

Lemma time_conservation_witness :
  let s := run boot scenario_B in
  let s' := step s (scan tag_aabb 6000) in
  (totalMs (project_at s 0) 2000 ≤ totalMs (project_at s 0) 6000)%Z ∧
  totalMs (project_at s 0) 6000 = 5000%Z ∧
  totalMs (project_at s' 0) 9000 = 5000%Z ∧
  (accumulatedMs (project_at s 0) ≤ accumulatedMs (project_at s' 0))%Z.
Proof.
  intros s s'.
  destruct (time_conservation scenario_B (scan tag_aabb 6000))
    as (Hmono & Hpause & Hacc).
  - simpl. lia.
  - simpl. lia.
  - fold s in Hmono, Hpause, Hacc. fold s' in Hpause, Hacc.
    split; [apply Hmono; [vm_compute; lia|simpl; lia|lia]|].
    split; [reflexivity|].
    split; [rewrite (Hpause "aa:bb" 0 0); reflexivity|].
    by apply (Hacc "aa:bb").
Defined.

(** Beyond the run of the clock that [clock_ok] describes, the 32-bit sum wraps:
    a running entry whose accumulated time is [2^32 - 1] has a smaller total one
    millisecond later. *)
Remark totalMs_wraps :
  let p := mkProject "aa:bb" "Demo" true 0 (2 ^ 32 - 1) in
  (totalMs p 1 < totalMs p 0)%Z.
Proof. by vm_compute. Qed.

(** ** The text of a UID *)

Lemma hex_digit_code n :
  (n < 16)%N →
  N_of_ascii (hex_digit n) = (if (n <? 10)%N then 48 + n else 87 + n)%N.
Proof.
  intros Hn. unfold hex_digit.
  destruct (N.ltb_spec n 10); apply N_ascii_embedding; lia.
Qed.

Lemma hex_digit_inj n m :
  (n < 16)%N → (m < 16)%N → hex_digit n = hex_digit m → n = m.
Proof.
  intros Hn Hm Heq. apply (f_equal N_of_ascii) in Heq.
  rewrite !hex_digit_code in Heq by done.
  destruct (N.ltb_spec n 10), (N.ltb_spec m 10); lia.
Qed.

Lemma hex_digit_not_colon n : (n < 16)%N → hex_digit n ≠ ":"%char.
Proof.
  intros Hn Heq. apply (f_equal N_of_ascii) in Heq.
  rewrite hex_digit_code in Heq by done. simpl in Heq.
  destruct (N.ltb_spec n 10); lia.
Qed.

(** Each byte gives its two hexadecimal digits, and a colon stands before
    every byte but the first. *)
Lemma format_uid_cons b rest :
  format_uid (b :: rest) =
  String (hex_digit (Byte.to_N b / 16))
    (String (hex_digit (Byte.to_N b mod 16))
       (match rest with
        | [] => ""
        | _ => String ":" (format_uid rest)
        end)).
Proof.
  cbn [format_uid]. unfold String_hex.
  assert (Hsep : ∀ x : string,
    (match rest with [] => "" | _ :: _ => ":" end) +:+ x =
    match rest with [] => x | _ => String ":" x end) by (by destruct rest).
  destruct (N.ltb_spec (Byte.to_N b) 16) as [Hlt|Hge].
  - rewrite N.div_small, N.mod_small by done.
    rewrite !append_cons, !append_nil, Hsep. by destruct rest.
  - rewrite !append_cons, !append_nil, Hsep. by destruct rest.
Qed.

Lemma byte_of_digits a b :
  (Byte.to_N a / 16 = Byte.to_N b / 16)%N →
  (Byte.to_N a mod 16 = Byte.to_N b mod 16)%N → a = b.
Proof.
  intros Hd Hm.
  assert (Heq : Byte.to_N a = Byte.to_N b).
  { rewrite (N.div_mod (Byte.to_N a) 16), (N.div_mod (Byte.to_N b) 16) by done.
    by rewrite Hd, Hm. }
  pose proof (Byte.of_to_N a) as Ha. rewrite Heq, Byte.of_to_N in Ha. by injection Ha.
Qed.

Lemma format_uid_nil_inv (a : list byte) : format_uid a = "" → a = [].
Proof. destruct a as [|x a]; [done|]. rewrite format_uid_cons. discriminate. Qed.

(** Equal texts have equal first bytes and equal texts of the other bytes. *)
Lemma format_uid_cons_inv x a y b :
  format_uid (x :: a) = format_uid (y :: b) →
  x = y ∧ format_uid a = format_uid b.
Proof.
  rewrite !format_uid_cons. intros Heq. injection Heq as Hhi Hlo Hrest.
  pose proof (Byte.to_N_bounded x). pose proof (Byte.to_N_bounded y).
  apply hex_digit_inj in Hhi; [|apply N.Div0.div_lt_upper_bound; lia..].
  apply hex_digit_inj in Hlo; [|apply N.mod_lt; lia..].
  split; [by apply byte_of_digits|].
  destruct a as [|x' a], b as [|y' b]; try done. by injection Hrest.
Qed.

(** X1. Two cards with different UID bytes never get the same UID text: the
    text determines the bytes. *)
Theorem format_uid_inj (a b : list byte) : format_uid a = format_uid b ↔ a = b.
Proof.
  split; [|by intros ->].
  revert b. induction a as [|x a IH]; intros b Heq.
  - symmetry. by apply format_uid_nil_inv.
  - destruct b as [|y b]; [by apply format_uid_nil_inv in Heq|].
    apply format_uid_cons_inv in Heq as [-> Heq]. f_equal. by apply IH.
Qed.

Lemma format_uid_inj_witness : format_uid tag_aabb ≠ format_uid tag_1111.
Proof.
  intros Heq. apply (proj1 (format_uid_inj tag_aabb tag_1111)) in Heq. discriminate.
Defined.

(** X2. The admin branch is taken for the card with the bytes 74 8a 71 16 and
    for no other card. *)
Theorem admin_card_bytes (uid : list byte) :
  String.eqb (format_uid uid) ADMIN_UID = true ↔ uid = [x74; x8a; x71; x16].
Proof.
  rewrite String.eqb_eq. split; [|by intros ->].
  change ADMIN_UID with (format_uid [x74; x8a; x71; x16]). intros Heq.
  do 4 (destruct uid as [|? uid];
        [symmetry in Heq; by apply format_uid_nil_inv in Heq|];
        apply format_uid_cons_inv in Heq as [-> Heq]; f_equal).
  by apply format_uid_nil_inv.
Qed.

Lemma admin_card_bytes_witness :
  String.eqb (format_uid admin_bytes) ADMIN_UID = true ∧
  String.eqb (format_uid tag_aabb) ADMIN_UID ≠ true.
Proof.
  split; [by apply (proj2 (admin_card_bytes admin_bytes))|].
  intros Heq. apply (proj1 (admin_card_bytes tag_aabb)) in Heq. discriminate.
Defined.

(** X3. The text of a UID of [n] bytes has [3 n - 1] characters (none for no
    byte): two digits a byte, also for a byte below 0x10, and the colons
    between them. *)
Theorem format_uid_length (uid : list byte) :
  String.length (format_uid uid) = 3 * length uid - 1.
Proof.
  induction uid as [|b rest IH]; [done|].
  rewrite format_uid_cons. cbn [String.length length].
  destruct rest as [|b' rest]; [done|].
  cbn [String.length]. rewrite IH. cbn [length]. lia.
Qed.

(** ** The admin card twice *)

Lemma step_admin s inp uid :
  no_host_line s inp → card inp = Some uid → format_uid uid = ADMIN_UID →
  step s inp = set_pendingDeletion (negb (pendingDeletion s)) s.
Proof.
  intros Hno Hcard Hadm. unfold step. rewrite loop_no_host_line, Hcard by done.
  unfold handle_card. apply String.eqb_eq in Hadm. by rewrite Hadm.
Qed.

(** X4. Two passes in a row that handle the admin card leave every variable
    as it was before the first. *)
Theorem admin_twice_restores (s : State) (inp1 inp2 : Input) (uid1 uid2 : list byte) :
  no_host_line s inp1 → no_host_line s inp2 →
  card inp1 = Some uid1 → format_uid uid1 = ADMIN_UID →
  card inp2 = Some uid2 → format_uid uid2 = ADMIN_UID →
  step (step s inp1) inp2 = s.
Proof.
  intros Hno1 Hno2 Hc1 Ha1 Hc2 Ha2.
  rewrite (step_admin s inp1 uid1) by done.
  rewrite (step_admin _ inp2 uid2) by done.
  destruct s. unfold set_pendingDeletion. simpl. by rewrite negb_involutive.
Qed.

Lemma admin_twice_restores_witness :
  let s := run boot scenario_C in
  step (step s (scan admin_bytes 100)) (scan admin_bytes 5000) = s.
Proof.
  intros s.
  apply (admin_twice_restores s _ _ admin_bytes admin_bytes);
    first [by right | reflexivity].
Defined.

(** ** The flags and the counter after a pass *)

Lemma stop_loop_scalars t lo n s :
  let s' := for_range lo n (stop_body t) s in
  projectCount s' = projectCount s ∧
  pendingDeletion s' = pendingDeletion s ∧
  waitingForProjectName s' = waitingForProjectName s ∧
  newUID s' = newUID s ∧
  displayFreezeUntil s' = displayFreezeUntil s.
Proof.
  revert lo s. induction n as [|n IH]; intros lo s; simpl; [done|].
  destruct (IH (S lo) (stop_body t lo s)) as (-> & -> & -> & -> & ->).
  unfold stop_body. by destruct (projectActive s !!! lo).
Qed.

(** X5. Deletion stays armed only until the next card: after a pass that
    handles a card other than the admin card [pendingDeletion] is false, the
    admin card toggles it, and a pass that handles no card leaves it alone.
    [waitingForProjectName] is cleared by the serial branch and by nothing
    else, and set by an unknown card handled with deletion not armed and by
    nothing else. *)
Theorem flags_after_pass (s : State) (inp : Input) :
  let s' := step s inp in
  pendingDeletion s' =
    (if host_line_taken s inp then pendingDeletion s
     else match card inp with
          | None => pendingDeletion s
          | Some uid =>
              if String.eqb (format_uid uid) ADMIN_UID
              then negb (pendingDeletion s) else false
          end) ∧
  waitingForProjectName s' =
    (if host_line_taken s inp then false
     else match card inp with
          | None => waitingForProjectName s
          | Some uid =>
              if String.eqb (format_uid uid) ADMIN_UID then waitingForProjectName s
              else if pendingDeletion s then waitingForProjectName s
              else match find s (format_uid uid) with
                   | Some _ => waitingForProjectName s
                   | None => true
                   end
          end).
Proof.
  intros s'. subst s'. unfold host_line_taken.
  assert (Hcard : no_host_line s inp →
    pendingDeletion (step s inp) =
      match card inp with
      | None => pendingDeletion s
      | Some uid =>
          if String.eqb (format_uid uid) ADMIN_UID
          then negb (pendingDeletion s) else false
      end ∧
    waitingForProjectName (step s inp) =
      match card inp with
      | None => waitingForProjectName s
      | Some uid =>
          if String.eqb (format_uid uid) ADMIN_UID then waitingForProjectName s
          else if pendingDeletion s then waitingForProjectName s
          else match find s (format_uid uid) with
               | Some _ => waitingForProjectName s
               | None => true
               end
      end).
  { intros Hno. unfold step. rewrite loop_no_host_line by done.
    destruct (card inp) as [uid|]; [|done].
    unfold handle_card.
    destruct (String.eqb (format_uid uid) ADMIN_UID); [done|].
    destruct (pendingDeletion s) eqn:Hp.
    - destruct (find s (format_uid uid)) as [i|]; [|done].
      destruct (delete_project_fields s i (now inp))
        as (_ & _ & _ & _ & _ & _ & Hpd & Hw & _).
      by destruct (delete_project s i (now inp)).
    - destruct (find s (format_uid uid)) as [i|]; [|done].
      unfold known_card.
      destruct (projectActive s !!! i); cbn [negb].
      + unfold pause_project. simpl. by rewrite Hp.
      + unfold start_project, for_loop. simpl.
        destruct (stop_loop_scalars (now inp) 0 (projectCount s - 0) s)
          as (_ & -> & -> & _). by rewrite Hp. }
  destruct (waitingForProjectName s) eqn:Hw; [|apply Hcard; by left].
  destruct (serialBuf inp) as [raw|] eqn:Hser; [|apply Hcard; by right].
  unfold step, loop, host_line. rewrite Hw, Hser. simpl.
  by destruct (projectCount s <? MAX_PROJECTS).
Qed.

(** X6. In every state of a run from the boot state the five arrays have
    [MAX_PROJECTS] elements and [projectCount] is at most [MAX_PROJECTS], so
    every index below [projectCount] is inside the arrays; one pass changes
    [projectCount] by at most one, upwards only in the serial branch and
    downwards only with deletion armed. *)
Theorem registry_bounded (inps : list Input) (inp : Input) :
  let s := run boot inps in
  let s' := step s inp in
  wf s ∧
  length (registry s) = projectCount s ∧
  projectCount s' ≤ S (projectCount s) ∧
  projectCount s ≤ S (projectCount s') ∧
  (projectCount s < projectCount s' → host_line_taken s inp = true) ∧
  (projectCount s' < projectCount s →
   host_line_taken s inp = false ∧ pendingDeletion s = true).
Proof.
  intros s s'.
  assert (Hwf : wf s) by apply wf_preserved, boot_wf.
  split; [done|]. split; [unfold registry; by rewrite length_fmap, length_seq|].
  destruct (loop_transition s inp Hwf) as [Ht _]. fold s' in Ht.
  unfold host_line_taken.
  destruct Ht as
    [raw Hw Hser ? Hcnt ? Hw' ? ? Hoth Hnew | raw ? ? ? -> | ? ? ->
    | uid ? ? ? -> | uid d Hno ? ? Hp ? Hcnt ? Hw' Hnu ? Hlo Hhi
    | uid ? ? ? ? ? -> | uid d ? ? ? ? ? ? Hcnt ? Hw' Hnu ? Hat Hoth ?
    | uid d ? ? ? ? Hfind ? Hcnt ? Hw' Hnu ? Hat Hoth | uid ? ? ? ? Hfind ->];
    simpl; rewrite ?Hcnt; repeat split; try lia.
  all: try (intros _).
  - by rewrite Hw, Hser.
  - destruct Hno as [->| ->]; [done|].
    by destruct (waitingForProjectName s).
  - done.
Qed.

Lemma registry_bounded_witness :
  host_line_taken (run boot [scan tag_aabb 0]) (host "Demo" 5) = true.
Proof.
  destruct (registry_bounded [scan tag_aabb 0] (host "Demo" 5)) as (_ & _ & _ & _ & Hup & _).
  apply Hup. vm_compute. lia.
Defined.

(** ** Halting the card and blocking *)

Lemma display_quiet s t :
  count_halts (display s t) = 0 ∧ total_delay (display s t) = 0%Z ∧
  halt_then_wait (display s t) = true.
Proof.
  unfold display, print_padded, clearLCDLine.
  destruct (displayFreezeUntil s <? t)%Z; [|done].
  destruct (first_active_from (projectActive s) 0 (projectCount s)) as [i|].
  - set (l := uadd _ _).
    by destruct (hours_of l <? 10)%Z, (minutes_of l <? 10)%Z, (seconds_of l <? 10)%Z.
  - by destruct (negb (waitingForProjectName s) && negb (pendingDeletion s)).
Qed.

Lemma handle_card_effects s uid t :
  let '(s1, out, returned) := handle_card s uid t in
  ∀ post,
    count_halts post = 0 → total_delay post = 0%Z → halt_then_wait post = true →
    count_halts (out ++ post) = 1 ∧
    halt_then_wait (out ++ post) = true ∧
    (1000 ≤ total_delay (out ++ post) ≤ 4000)%Z.
Proof.
  unfold handle_card.
  destruct (String.eqb (format_uid uid) ADMIN_UID).
  { unfold admin_card, lcd_prompt. simpl. intros post Hc Hd Hh.
    destruct (pendingDeletion s); simpl; rewrite Hc, Hd, Hh; repeat split; lia. }
  destruct (pendingDeletion s).
  - destruct (find s (format_uid uid)) as [i|].
    + unfold delete_project, lcd_prompt. simpl. intros post Hc Hd Hh.
      rewrite Hc, Hd, Hh; repeat split; lia.
    + unfold not_found, lcd_prompt. simpl. intros post Hc Hd Hh.
      rewrite Hc, Hd, Hh; repeat split; lia.
  - destruct (find s (format_uid uid)) as [i|].
    + unfold known_card.
      destruct (projectActive s !!! i); cbn [negb].
      * unfold pause_project. simpl. intros post Hc Hd Hh.
        rewrite Hc, Hd, Hh; repeat split; lia.
      * unfold start_project. simpl. intros post Hc Hd Hh.
        rewrite Hc, Hd, Hh; repeat split; lia.
    + unfold unknown_card. simpl. intros post Hc Hd Hh.
      rewrite Hc, Hd, Hh; repeat split; lia.
Qed.

Lemma loop_card_effects s inp uid :
  no_host_line s inp → card inp = Some uid →
  count_halts (snd (loop s inp)) = 1 ∧
  halt_then_wait (snd (loop s inp)) = true ∧
  (1000 ≤ total_delay (snd (loop s inp)) ≤ 4000)%Z.
Proof.
  intros Hno Hcard. rewrite loop_no_host_line, Hcard by done.
  pose proof (handle_card_effects s uid (now inp)) as H.
  destruct (handle_card s uid (now inp)) as [[s1 out] returned].
  destruct returned; simpl.
  - specialize (H [] eq_refl eq_refl eq_refl). by rewrite app_nil_r in H.
  - destruct (display_quiet s1 (nowDisplay inp)) as (Hc & Hd & Hh). by apply H.
Qed.

Lemma loop_host_line_effects s inp raw :
  waitingForProjectName s = true → serialBuf inp = Some raw →
  count_halts (snd (loop s inp)) = 0 ∧
  halt_then_wait (snd (loop s inp)) = true ∧
  (2000 ≤ total_delay (snd (loop s inp)) ≤ 3000)%Z.
Proof.
  intros Hw Hser. unfold loop, host_line, lcd_prompt. rewrite Hw, Hser.
  destruct (projectCount s <? MAX_PROJECTS); simpl; repeat split; lia.
Qed.

(** X7. A pass that handles a card calls [PICC_HaltA] exactly once, on each of
    its ways out of [loop()], and a pass that handles none never does; every
    such call is directly followed by [delay(1000)]. *)
Theorem card_halted_once (s : State) (inp : Input) :
  let out := snd (loop s inp) in
  count_halts out =
    (if host_line_taken s inp then 0
     else match card inp with Some _ => 1 | None => 0 end) ∧
  halt_then_wait out = true.
Proof.
  intros out. subst out. unfold host_line_taken.
  assert (Hcard : no_host_line s inp →
    count_halts (snd (loop s inp)) = match card inp with Some _ => 1 | None => 0 end ∧
    halt_then_wait (snd (loop s inp)) = true).
  { intros Hno. destruct (card inp) as [uid|] eqn:Hc.
    - destruct (loop_card_effects s inp uid) as (? & ? & _); done.
    - rewrite loop_no_host_line, Hc by done. simpl.
      destruct (display_quiet s (nowDisplay inp)) as (? & _ & ?). done. }
  destruct (waitingForProjectName s) eqn:Hw; [|apply Hcard; by left].
  destruct (serialBuf inp) as [raw|] eqn:Hser; [|apply Hcard; by right].
  destruct (loop_host_line_effects s inp raw) as (? & ? & _); done.
Qed.

(** X8. No pass spends more than 4000 ms in [delay]: 2000 or 3000 ms in the
    serial branch, between 1000 and 4000 ms when it handles a card, and none
    at all otherwise. *)
Theorem pass_blocks_at_most_4s (s : State) (inp : Input) :
  let d := total_delay (snd (loop s inp)) in
  (0 ≤ d ≤ 4000)%Z ∧
  (if host_line_taken s inp then (2000 ≤ d ≤ 3000)%Z
   else match card inp with
        | Some _ => (1000 ≤ d)%Z
        | None => d = 0%Z
        end).
Proof.
  intros d. subst d. unfold host_line_taken.
  assert (Hcard : no_host_line s inp →
    (0 ≤ total_delay (snd (loop s inp)) ≤ 4000)%Z ∧
    match card inp with
    | Some _ => (1000 ≤ total_delay (snd (loop s inp)))%Z
    | None => total_delay (snd (loop s inp)) = 0%Z
    end).
  { intros Hno. destruct (card inp) as [uid|] eqn:Hc.
    - destruct (loop_card_effects s inp uid) as (_ & _ & ?); [done..|]. lia.
    - rewrite loop_no_host_line, Hc by done. simpl.
      destruct (display_quiet s (nowDisplay inp)) as (_ & -> & _). lia. }
  destruct (waitingForProjectName s) eqn:Hw; [|apply Hcard; by left].
  destruct (serialBuf inp) as [raw|] eqn:Hser; [|apply Hcard; by right].
  destruct (loop_host_line_effects s inp raw) as (_ & _ & ?); [done..|].
  simpl. lia.
Qed.

(** ** The display block *)

Lemma first_active_from_Some act i n k :
  first_active_from act i n = Some k →
  i ≤ k < i + n ∧ act !!! k = true ∧ ∀ j, i ≤ j < k → act !!! j = false.
Proof.
  revert i. induction n as [|n IH]; intros i; simpl; [discriminate|].
  destruct (act !!! i) eqn:Hact.
  - intros [= <-]. split; [lia|]. split; [done|]. intros j ?; lia.
  - intros Hf. destruct (IH _ Hf) as (Hr & Hk & Hb).
    split; [lia|]. split; [done|].
    intros j Hj. destruct (decide (j = i)) as [->|]; [done|]. apply Hb; lia.
Qed.

Lemma first_active_from_None act i n :
  first_active_from act i n = None → ∀ j, i ≤ j < i + n → act !!! j = false.
Proof.
  revert i. induction n as [|n IH]; intros i; simpl; [intros _ j ?; lia|].
  destruct (act !!! i) eqn:Hact; [discriminate|].
  intros Hf j Hj. destruct (decide (j = i)) as [->|]; [done|].
  apply (IH _ Hf); lia.
Qed.

(** X9. What the display block shows in a state of a run from the boot state.
    Up to the freeze deadline it shows nothing new.  After it, it shows the
    name and the elapsed time of the running project, whichever index it has;
    with no project running it shows the prompt in Idle mode and leaves the
    screen alone while a name is awaited or deletion is armed. *)
Theorem display_shows_running (inps : list Input) (t : Z) :
  let s := run boot inps in
  ((t ≤ displayFreezeUntil s)%Z → display s t = []) ∧
  ((displayFreezeUntil s < t)%Z →
   ∀ k, k < projectCount s → isActive (project_at s k) = true →
        display s t =
        running_screen (name (project_at s k)) (totalMs (project_at s k) t)) ∧
  ((displayFreezeUntil s < t)%Z →
   (∀ k, k < projectCount s → isActive (project_at s k) = false) →
   display s t = if mode s is Some Idle then prompt_screen else []).
Proof.
  intros s. unfold display. split; [|split].
  - intros Hle. by destruct (Z.ltb_spec (displayFreezeUntil s) t); [lia|].
  - intros Hlt k Hk Hact.
    destruct (Z.ltb_spec (displayFreezeUntil s) t); [|lia].
    assert (Hone : one_active s).
    { apply run_invariant; [apply one_active_boot|apply one_active_step]. }
    destruct (first_active_from (projectActive s) 0 (projectCount s)) as [i|] eqn:Hf.
    + destruct (first_active_from_Some _ _ _ _ Hf) as (Hi & Hai & _).
      assert (i = k) as -> by (apply Hone; [lia|done|done|done]).
      unfold running_screen, time_row, totalMs. by rewrite Hact.
    + pose proof (first_active_from_None _ _ _ Hf k) as Hn.
      simpl in Hact. rewrite Hn in Hact by lia. done.
  - intros Hlt Hnone.
    destruct (Z.ltb_spec (displayFreezeUntil s) t); [|lia].
    destruct (first_active_from (projectActive s) 0 (projectCount s)) as [i|] eqn:Hf.
    + destruct (first_active_from_Some _ _ _ _ Hf) as (Hi & Hai & _).
      specialize (Hnone i). simpl in Hnone. rewrite Hai in Hnone.
      assert (true = false) by (apply Hnone; lia). done.
    + unfold mode, prompt_screen.
      by destruct (waitingForProjectName s), (pendingDeletion s).
Qed.

Lemma display_shows_running_witness :
  display (run boot scenario_B) 62000 = running_screen "Demo" 61000 ∧
  display (run boot scenario_B) 3000 = [].
Proof.
  destruct (display_shows_running scenario_B 62000) as (_ & Hrun & _).
  destruct (display_shows_running scenario_B 3000) as (Hfrozen & _).
  split; [|apply Hfrozen; by vm_compute].
  apply (Hrun ltac:(by vm_compute) 0); [vm_compute; lia|reflexivity].
Defined.

(** ** Hours, minutes and seconds *)

(** X10. For a 32-bit time the three numbers that are printed are the hours,
    minutes and seconds of that time: with the milliseconds that are dropped
    they add up to it, seconds and minutes are below 60, and the hours are at
    most 1193, so each fits the 16-bit [int] it is stored in. *)
Theorem hms_decomposition (total : Z) :
  (0 ≤ total < 2 ^ 32)%Z →
  (total = hours_of total * 3600000 + minutes_of total * 60000 +
           seconds_of total * 1000 + total `mod` 1000)%Z ∧
  (0 ≤ seconds_of total < 60)%Z ∧
  (0 ≤ minutes_of total < 60)%Z ∧
  (0 ≤ hours_of total ≤ 1193)%Z ∧
  (1193 < 2 ^ 15)%Z.
Proof.
  intros Ht. unfold hours_of, minutes_of, seconds_of.
  Z.div_mod_to_equations. lia.
Qed.

Lemma hms_decomposition_witness :
  (hours_of 3725999 = 1 ∧ minutes_of 3725999 = 2 ∧ seconds_of 3725999 = 5)%Z.
Proof.
  destruct (hms_decomposition 3725999) as (Hsum & Hs & Hm & Hh & _); [lia|].
  repeat split; reflexivity.
Defined.

Lemma lcd_width_app a b : lcd_width (a ++ b) = lcd_width a + lcd_width b.
Proof.
  induction a as [|e a IH]; [done|]. destruct e; simpl; rewrite IH; lia.
Qed.

Lemma String_dec_length v :
  (0 ≤ v < 1200)%Z → String.length (String_dec v) = digits v.
Proof.
  intros Hv.
  assert (Hall : forallb digits_ok (seqZ 0 1200) = true) by (by vm_compute).
  rewrite forallb_forall in Hall.
  specialize (Hall v). unfold digits_ok in Hall.
  apply Nat.eqb_eq, Hall, list_elem_of_In, elem_of_seqZ. lia.
Qed.

Lemma print_padded_width v unit :
  (0 ≤ v < 1200)%Z →
  lcd_width (print_padded v unit) =
  (if (v <? 100)%Z then 2 else digits v) + String.length unit.
Proof.
  intros Hv. unfold print_padded. rewrite lcd_width_app. simpl.
  rewrite String_dec_length by done. unfold digits.
  destruct (Z.ltb_spec v 10), (Z.ltb_spec v 100); simpl; lia.
Qed.

Lemma uadd_range a b : (0 ≤ uadd a b < 2 ^ 32)%Z.
Proof. unfold uadd, wrap32. apply Z.mod_pos_bound. lia. Qed.

(** X11. The elapsed time that the display block prints on the second row
    never takes more than 13 of its 16 columns, and exactly 11 below 100
    hours: two digits at least for the hours and two digits each for minutes
    and seconds. *)
Theorem time_row_fits (acc start t : Z) :
  let laufzeit := uadd acc (usub t start) in
  lcd_width (time_row laufzeit) ≤ 13 ∧
  lcd_width (clearLCDLine 1) = 16 ∧
  ((laufzeit < 360000000)%Z → lcd_width (time_row laufzeit) = 11).
Proof.
  intros l. pose proof (uadd_range acc (usub t start)) as Hr. fold l in Hr.
  assert (Hs : (0 ≤ seconds_of l < 60)%Z)
    by (unfold seconds_of; Z.div_mod_to_equations; lia).
  assert (Hm : (0 ≤ minutes_of l < 60)%Z)
    by (unfold minutes_of; Z.div_mod_to_equations; lia).
  assert (Hh : (0 ≤ hours_of l ≤ 1193)%Z)
    by (unfold hours_of; Z.div_mod_to_equations; lia).
  unfold time_row. rewrite !lcd_width_app, !print_padded_width by lia.
  destruct (Z.ltb_spec (minutes_of l) 100); [|lia].
  destruct (Z.ltb_spec (seconds_of l) 100); [|lia].
  unfold digits. cbn [String.length].
  split; [|split; [done|]].
  - destruct (Z.ltb_spec (hours_of l) 100), (Z.ltb_spec (hours_of l) 10),
      (Z.ltb_spec (hours_of l) 1000); lia.
  - intros Hlt. destruct (Z.ltb_spec (hours_of l) 100); [lia|].
    unfold hours_of in *. Z.div_mod_to_equations. lia.
Qed.

Lemma time_row_fits_witness :
  lcd_width (time_row (uadd 2000 (usub 5000 2000))) = 11.
Proof. apply (time_row_fits 2000 2000 5000). by vm_compute. Defined.

(** ** Registering, deleting and finding *)

Lemma find_first s u k :
  k < projectCount s → tagId (project_at s k) = u →
  (∀ j, j < k → tagId (project_at s j) ≠ u) →
  find s u = Some k.
Proof.
  intros Hk Htag Hbefore.
  destruct (find s u) as [i|] eqn:Hf.
  - destruct (find_Some _ _ _ Hf) as (Hi & Hti & Hbi). f_equal.
    destruct (Nat.lt_total i k) as [Hlt|[->|Hgt]]; [|done|].
    + by destruct (Hbefore i Hlt).
    + by destruct (Hbi k Hgt).
  - by destruct (find_None _ _ Hf k Hk).
Qed.

(** X12. An unknown card and then a host line register the card: from Idle
    mode with room in the registry, the first pass awaits a name for the tag
    and leaves the registry alone, and the second appends an entry with the
    tag and the trimmed name, not running and with no time, which [find]
    then returns; the search for any other tag gives what it gave before. *)
Theorem register_then_find (inps : list Input) (inp1 inp2 : Input)
    (uid : list byte) (raw : string) :
  let s := run boot inps in
  let u := format_uid uid in
  let s1 := step s inp1 in
  let s2 := step s1 inp2 in
  mode s = Some Idle →
  card inp1 = Some uid → u ≠ ADMIN_UID → find s u = None →
  projectCount s < MAX_PROJECTS → serialBuf inp2 = Some raw →
  mode s1 = Some (AwaitingProjectName u) ∧
  registry s1 = registry s ∧
  registry s2 =
    registry s ++ [mkProject u (trim (readStringUntil newline raw)) false 0 0] ∧
  find s2 u = Some (projectCount s) ∧
  (∀ v, v ≠ u → find s2 v = find s v) ∧
  mode s2 = Some Idle.
Proof.
  intros s u s1 s2 Hmode Hcard Hadm Hfind Hlt Hser.
  assert (Hwf : wf s) by apply wf_preserved, boot_wf.
  apply mode_Idle in Hmode as [Hw Hp].
  assert (Hs1 : s1 = set_waitingForProjectName true (set_newUID u s)).
  { unfold s1, step. rewrite loop_no_host_line, Hcard by (by left).
    unfold handle_card. fold u. apply String.eqb_neq in Hadm.
    by rewrite Hadm, Hp, Hfind. }
  assert (Hwf1 : wf s1) by (by apply step_wf).
  destruct (step_add s1 inp2 raw) as (Hcnt & Hpd & Hw2 & _ & _ & Hoth & Hnew);
    [done|by rewrite Hs1|done|by rewrite Hs1|].
  fold s2 in Hcnt, Hpd, Hw2, Hoth, Hnew.
  assert (Hc1 : projectCount s1 = projectCount s) by (by rewrite Hs1).
  assert (Hn1 : newUID s1 = u) by (by rewrite Hs1).
  assert (Hat1 : ∀ k, project_at s1 k = project_at s k) by (by rewrite Hs1).
  rewrite Hc1, Hn1 in *.
  split; [by rewrite Hs1; unfold mode; simpl; rewrite Hp|].
  split; [unfold registry; rewrite Hc1; by rewrite Hs1|].
  split; [|split; [|split]].
  - apply list_eq. intros k. rewrite registry_lookup, Hcnt.
    destruct (decide (k < projectCount s)) as [Hk|Hk].
    + rewrite lookup_app_l by (unfold registry; rewrite length_fmap, length_seq; lia).
      rewrite registry_lookup, decide_True, decide_True by lia.
      by rewrite Hoth, Hat1 by lia.
    + rewrite lookup_app_r by (unfold registry; rewrite length_fmap, length_seq; lia).
      unfold registry at 1. rewrite length_fmap, length_seq.
      destruct (decide (k = projectCount s)) as [->|Hne].
      * rewrite decide_True, Nat.sub_diag by lia. by rewrite Hnew.
      * rewrite decide_False by lia.
        destruct (k - projectCount s) as [|d] eqn:Hd; [lia|done].
  - apply find_first; [lia|by rewrite Hnew|].
    intros j Hj. rewrite Hoth, Hat1 by lia. by apply (find_None _ _ Hfind).
  - intros v Hv. destruct (find s v) as [i|] eqn:Hfv.
    + destruct (find_Some _ _ _ Hfv) as (Hi & Hti & Hbi).
      apply find_first; [lia|by rewrite Hoth, Hat1 by lia|].
      intros j Hj. rewrite Hoth, Hat1 by lia. by apply Hbi.
    + apply find_None_intro. intros j. rewrite Hcnt. intros Hj.
      destruct (decide (j = projectCount s)) as [->|];
        [rewrite Hnew; simpl; congruence|].
      rewrite Hoth, Hat1 by done. apply (find_None _ _ Hfv). lia.
  - apply mode_Idle. split; [done|]. rewrite Hpd. by rewrite Hs1.
Qed.

Lemma register_then_find_witness :
  let s2 := run boot [scan tag_aabb 0; host "Demo" 100] in
  registry s2 = [mkProject "aa:bb" "Demo" false 0 0] ∧
  find s2 "aa:bb" = Some 0 ∧
  mode s2 = Some Idle.
Proof.
  destruct (register_then_find [] (scan tag_aabb 0) (host "Demo" 100) tag_aabb "Demo")
    as (_ & _ & Hreg & Hfind & _ & Hmode); try reflexivity; [by vm_compute|vm_compute; lia|].
  split; [exact Hreg|]. split; [exact Hfind|exact Hmode].
Defined.

(** X13. Deleting a project removes its tag from the registry: in a state of
    a run from the boot state, after the card of the project at index [i] is
    handled with deletion armed, [find] no longer finds its tag, and finds
    every other tag where it was, one index lower for the entries behind
    [i]. *)
Theorem delete_then_find (inps : list Input) (inp : Input) (uid : list byte) (i : nat) :
  let s := run boot inps in
  let u := format_uid uid in
  let s' := step s inp in
  no_host_line s inp → card inp = Some uid →
  pendingDeletion s = true → find s u = Some i →
  find s' u = None ∧
  ∀ v, v ≠ u →
       find s' v = (λ j, if decide (j < i) then j else j - 1) <$> find s v.
Proof.
  intros s u s' Hno Hcard Hp Hfind.
  assert (Hwf : wf s) by apply wf_preserved, boot_wf.
  assert (Huniq : unique_tags s).
  { apply (run_invariant tags_inv); [apply tags_inv_boot|apply tags_inv_step]. }
  pose proof (found_not_admin _ _ _ Hfind) as Hadm.
  destruct (find_Some _ _ _ Hfind) as (Hi & Hti & _).
  change (tagId (project_at s i) = u) in Hti.
  destruct (step_delete s inp uid i) as (Hcnt & _ & _ & _ & _ & Hlo & Hhi); try done.
  fold s' in Hcnt, Hlo, Hhi.
  assert (Hat : ∀ k, k < projectCount s' →
    project_at s' k = project_at s (if decide (k < i) then k else S k)).
  { intros k Hk. case_decide; [by apply Hlo|apply Hhi; lia]. }
  split.
  - apply find_None_intro. intros k Hk. rewrite Hat by done. intros Heq.
    assert ((if decide (k < i) then k else S k) = i);
      [apply Huniq; [case_decide; lia|done|congruence]|case_decide; lia].
  - intros v Hv. destruct (find s v) as [j|] eqn:Hfv; simpl.
    + destruct (find_Some _ _ _ Hfv) as (Hj & Htj & Hbj).
      change (tagId (project_at s j) = v) in Htj.
      assert (j ≠ i) by (intros ->; congruence).
      apply find_first.
      * case_decide; lia.
      * rewrite Hat by (case_decide; lia). rewrite <- Htj. do 2 f_equal.
        repeat case_decide; lia.
      * intros k Hk. rewrite Hat by (case_decide; lia).
        apply Hbj. repeat case_decide; lia.
    + apply find_None_intro. intros k Hk. rewrite Hat by done.
      apply (find_None _ _ Hfv). case_decide; lia.
Qed.

Lemma delete_then_find_witness :
  let s := run boot scenario_ABC in
  let s' := step s (scan tag_1111 300) in
  find s' "11:11" = None ∧ find s "aa:bb" = Some 2 ∧ find s' "aa:bb" = Some 1.
Proof.
  intros s s'.
  destruct (delete_then_find scenario_ABC (scan tag_1111 300) tag_1111 0)
    as (Hgone & Hother); [by right|reflexivity..|].
  split; [exact Hgone|]. split; [reflexivity|].
  fold s s' in Hother. by rewrite (Hother "aa:bb").
Defined.

(** ** One session *)

Lemma find_same_tags s s' u :
  projectCount s' = projectCount s →
  (∀ k, k < projectCount s → tagId (project_at s' k) = tagId (project_at s k)) →
  find s' u = find s u.
Proof.
  intros Hcnt Htag. destruct (find s u) as [i|] eqn:Hf.
  - destruct (find_Some _ _ _ Hf) as (Hi & Hti & Hbi).
    apply find_first; [lia|by rewrite Htag|].
    intros j Hj. rewrite Htag by lia. by apply Hbi.
  - apply find_None_intro. intros j. rewrite Hcnt. intros Hj.
    rewrite Htag by done. by apply (find_None _ _ Hf).
Qed.

(** X14. One session of a project: in Idle mode, in a state of a run from the
    boot state, the card of a registered project that is not running, handled
    at [t1] and again at [t2], adds [t2 - t1] modulo [2^32] to the project's
    accumulated time and leaves no project running.  The sum is the plain one
    when nothing wraps, and the elapsed time is still right when the clock has
    wrapped once between [t1] and [t2]. *)
Theorem session_adds_elapsed (inps : list Input) (inp1 inp2 : Input)
    (uid : list byte) (i : nat) :
  let s := run boot inps in
  let p := project_at s i in
  let s1 := step s inp1 in
  let s2 := step s1 inp2 in
  let t1 := now inp1 in
  let t2 := now inp2 in
  mode s = Some Idle →
  card inp1 = Some uid → card inp2 = Some uid →
  find s (format_uid uid) = Some i → isActive p = false →
  project_at s1 i = started t1 p ∧
  project_at s2 i =
    mkProject (tagId p) (name p) false t1 (uadd (accumulatedMs p) (usub t2 t1)) ∧
  (∀ k, k < projectCount s2 → isActive (project_at s2 k) = false) ∧
  ((0 ≤ accumulatedMs p)%Z → (t1 ≤ t2)%Z →
   (accumulatedMs p + (t2 - t1) < 2 ^ 32)%Z →
   accumulatedMs (project_at s2 i) = (accumulatedMs p + (t2 - t1))%Z) ∧
  ((0 ≤ t2 < t1)%Z → (t1 < 2 ^ 32)%Z → usub t2 t1 = (2 ^ 32 - t1 + t2)%Z).
Proof.
  intros s p s1 s2 t1 t2 Hmode Hc1 Hc2 Hfind Hina.
  assert (Hwf : wf s) by apply wf_preserved, boot_wf.
  apply mode_Idle in Hmode as [Hw Hp].
  pose proof (found_not_admin _ _ _ Hfind) as Hadm.
  destruct (find_Some _ _ _ Hfind) as (Hi & _).
  destruct (step_start s inp1 uid i)
    as (Hcnt1 & Hp1 & Hw1 & _ & _ & Hat1 & Hoth1 & _); [done|by left|done..|].
  fold s1 t1 p in Hcnt1, Hp1, Hw1, Hat1, Hoth1.
  assert (Hfind1 : find s1 (format_uid uid) = Some i).
  { rewrite <- Hfind. apply find_same_tags; [done|]. intros k Hk.
    destruct (decide (k = i)) as [->|]; [by rewrite Hat1|].
    by rewrite Hoth1, stopped_tagId. }
  destruct (step_pause s1 inp2 uid i)
    as (Hcnt2 & _ & _ & _ & _ & Hat2 & Hoth2);
    [by apply step_wf|left; congruence|done..|by rewrite Hat1|].
  fold s2 t2 in Hcnt2, Hat2, Hoth2.
  assert (Hfinal : project_at s2 i =
    mkProject (tagId p) (name p) false t1 (uadd (accumulatedMs p) (usub t2 t1))).
  { by rewrite Hat2, Hat1. }
  split; [done|]. split; [done|]. split; [|split].
  - intros k. rewrite Hcnt2, Hcnt1. intros Hk.
    destruct (decide (k = i)) as [->|]; [by rewrite Hfinal|].
    by rewrite Hoth2, Hoth1, stopped_inactive.
  - intros Hacc Ht Hsum. rewrite Hfinal. simpl. by apply uadd_usub_exact.
  - intros Ht2 Ht1. unfold usub, wrap32.
    replace (t2 - t1)%Z with ((2 ^ 32 - t1 + t2) + (-1) * 2 ^ 32)%Z by lia.
    rewrite Z.mod_add by lia. apply Z.mod_small. lia.
Qed.

Lemma session_adds_elapsed_witness :
  let s := run boot [scan tag_aabb 0; host "Demo" 0] in
  let s2 := step (step s (scan tag_aabb 1000)) (scan tag_aabb 6000) in
  project_at s2 0 = mkProject "aa:bb" "Demo" false 1000 5000.
Proof.
  destruct (session_adds_elapsed [scan tag_aabb 0; host "Demo" 0]
              (scan tag_aabb 1000) (scan tag_aabb 6000) tag_aabb 0)
    as (_ & Hfinal & _); [reflexivity..|].
  exact Hfinal.
Defined.

(** X15. A pass never renames a project: in a state of a run from the boot
    state, a tag that is registered before and after a pass has the same name
    after it as before. *)
Theorem name_never_changes (inps : list Input) (inp : Input) (u : string) (i j : nat) :
  let s := run boot inps in
  let s' := step s inp in
  find s u = Some i → find s' u = Some j →
  name (project_at s' j) = name (project_at s i) ∧
  tagId (project_at s' j) = tagId (project_at s i).
Proof.
  intros s s' Hfi Hfj.
  assert (Hwf : wf s) by apply wf_preserved, boot_wf.
  assert (Htags : tags_inv s).
  { apply run_invariant; [apply tags_inv_boot|apply tags_inv_step]. }
  destruct (track s inp u i j Hwf Htags Hfi Hfj) as [Heq|[[_ Heq]|[_ Heq]]];
    fold s' in Heq; by rewrite Heq.
Qed.

Lemma name_never_changes_witness :
  let s := run boot scenario_ABC in
  name (project_at (step s (scan tag_1111 300)) 1) = name (project_at s 2).
Proof.
  intros s.
  by destruct (name_never_changes scenario_ABC (scan tag_1111 300) "aa:bb" 2 1)
    as [Hname _].
Defined.

(** ** The range of the stored times *)

Lemma usub_range a b : (0 ≤ usub a b < 2 ^ 32)%Z.
Proof. unfold usub, wrap32. apply Z.mod_pos_bound. lia. Qed.

Lemma in_range_step s inp :
  wf s → in_range s → u32 (now inp) → in_range (step s inp).
Proof.
  intros Hwf [Hfr Hk] Hnow.
  assert (Hm : MAX_PROJECTS = 10) by done.
  destruct (loop_transition s inp Hwf) as [Ht _].
  destruct Ht as
    [raw Hw ? ? Hcnt ? Hw' ? Hf Hoth Hnew | raw ? ? ? Hs' | ? ? Hs' | uid ? ? ? Hs'
    | uid d Hno Hcard Hadm Hp Hfind Hcnt ? Hw' Hnu Hf Hlo Hhi | uid ? ? ? ? ? Hs'
    | uid d ? ? ? ? ? ? Hcnt ? Hw' Hnu Hf Hat Hoth Hrest
    | uid d ? ? ? ? Hfind ? Hcnt ? Hw' Hnu Hf Hat Hoth | uid ? ? ? ? Hfind Hs'];
    try (rewrite Hs'; by split).
  - (* registration *)
    split; [by rewrite Hf|]. intros k Hlt.
    destruct (decide (k = projectCount s)) as [->|]; [|rewrite Hoth by done; auto].
    rewrite Hnew. simpl. unfold u32. lia.
  - (* deletion *)
    split; [by rewrite Hf|]. intros k Hlt.
    destruct (find_Some _ _ _ Hfind) as (Hd & _).
    pose proof (wf_count s Hwf) as Hmax.
    unfold step. rewrite (loop_delete s inp uid d) by done. cbn [fst].
    rewrite delete_project_at by done.
    repeat case_decide; apply Hk; lia.
  - (* start *)
    split; [rewrite Hf; apply uadd_range|]. intros k Hlt.
    destruct (decide (k = d)) as [->|].
    + rewrite Hat. simpl. split; [done|apply Hk; lia].
    + destruct (decide (k < projectCount s)); [|rewrite Hrest by lia; auto].
      rewrite Hoth by done. unfold stopped.
      destruct (isActive (project_at s k)); [|auto].
      simpl. split; [apply Hk; lia|apply uadd_range].
  - (* pause *)
    split; [rewrite Hf; apply uadd_range|]. intros k Hlt.
    destruct (decide (k = d)) as [->|]; [|rewrite Hoth by done; auto].
    rewrite Hat. simpl. split; [apply Hk; lia|apply uadd_range].
Qed.

Lemma in_range_boot : in_range boot.
Proof.
  split; [unfold u32; simpl; lia|]. intros k Hk.
  do 10 (destruct k as [|k]; [unfold u32; simpl; lia|]).
  unfold MAX_PROJECTS in Hk. lia.
Qed.

(** X16. As long as [millis()] returns values of [unsigned long], so are the
    freeze deadline and every element of [projectStartTime] and
    [projectAccumulatedTime], stale ones included, in every state of a run
    from the boot state. *)
Theorem times_in_range (inps : list Input) :
  Forall (λ inp, u32 (now inp)) inps → in_range (run boot inps).
Proof.
  assert (Hgen : ∀ s, wf s → in_range s →
                      Forall (λ inp, u32 (now inp)) inps → in_range (run s inps)).
  { induction inps as [|inp inps IH]; intros s Hwf Hin Hall; simpl; [done|].
    apply Forall_cons in Hall as [Hnow Hall].
    apply IH; [by apply step_wf|by apply in_range_step|done]. }
  apply Hgen; [apply boot_wf|apply in_range_boot].
Qed.

Lemma times_in_range_witness : in_range (run boot scenario_D).
Proof.
  apply times_in_range. unfold scenario_D, u32.
  repeat constructor; simpl; lia.
Defined.

(** ** The time credited to all projects *)

Lemma sum_upto_S (f : nat → Z) n :
  sumZ (f <$> seq 0 (S n)) = (sumZ (f <$> seq 0 n) + f n)%Z.
Proof.
  rewrite seq_S, fmap_app. simpl.
  generalize (f <$> seq 0 n). intros l.
  induction l as [|z l IH]; simpl; [lia|]. rewrite IH. lia.
Qed.

Lemma sum_upto_ext (f g : nat → Z) n :
  (∀ k, k < n → g k = f k) → sumZ (g <$> seq 0 n) = sumZ (f <$> seq 0 n).
Proof.
  induction n as [|n IH]; intros Heq; [done|].
  rewrite !sum_upto_S, IH by (intros; apply Heq; lia).
  by rewrite Heq by lia.
Qed.

Lemma sum_upto_nonneg (f : nat → Z) n :
  (∀ k, k < n → (0 ≤ f k)%Z) → (0 ≤ sumZ (f <$> seq 0 n))%Z.
Proof.
  induction n as [|n IH]; intros Hpos; [simpl; lia|].
  rewrite sum_upto_S. specialize (Hpos n ltac:(lia)) as Hn.
  assert (0 ≤ sumZ (f <$> seq 0 n))%Z by (apply IH; intros; apply Hpos; lia). lia.
Qed.

(** The sum over a sequence that has lost its element [i]. *)
Lemma sum_upto_delete (f g : nat → Z) i n :
  i ≤ n →
  (∀ k, k < i → g k = f k) → (∀ k, i ≤ k < n → g k = f (S k)) →
  sumZ (g <$> seq 0 n) = (sumZ (f <$> seq 0 (S n)) - f i)%Z.
Proof.
  induction n as [|n IH]; intros Hi Hlo Hhi.
  - assert (i = 0) as -> by lia. rewrite sum_upto_S. simpl. lia.
  - destruct (decide (i ≤ n)) as [Hle|Hgt].
    + rewrite (sum_upto_S g), IH by (try done; intros; apply Hhi; lia).
      rewrite (sum_upto_S f (S n)), Hhi by lia. lia.
    + assert (i = S n) as -> by lia.
      rewrite (sum_upto_ext f g) by done. rewrite (sum_upto_S f (S n)). lia.
Qed.

(** Without wrap-around the total is the plain sum. *)
Lemma totalMs_plain t t' p :
  (0 ≤ accumulatedMs p ≤ t)%Z →
  (isActive p = true → (accumulatedMs p ≤ sessionStart p ≤ t)%Z) →
  (t ≤ t' < 2 ^ 32)%Z →
  totalMs p t' =
  (accumulatedMs p + if isActive p then t' - sessionStart p else 0)%Z.
Proof.
  intros Ha Hs Ht. unfold totalMs. destruct (isActive p); [|lia].
  specialize (Hs eq_refl). apply uadd_usub_small; lia.
Qed.

Lemma credited_grows t t' s :
  time_inv t s → one_active s → (t ≤ t' < 2 ^ 32)%Z →
  (0 ≤ credited s t' ≤ credited s t + (t' - t))%Z.
Proof.
  intros [H0 Hk] Hone Ht. unfold credited.
  assert (Hgen : ∀ n, n ≤ projectCount s →
    (0 ≤ credited_upto s n t')%Z ∧
    (credited_upto s n t' ≤ credited_upto s n t + (t' - t))%Z ∧
    ((∀ k, k < n → isActive (project_at s k) = false) →
     credited_upto s n t' = credited_upto s n t));
    [|destruct (Hgen (projectCount s)) as (? & ? & _); [done|lia]].
  unfold credited_upto. induction n as [|n IH]; intros Hn.
  - simpl. repeat split; lia.
  - destruct IH as (IH0 & IHle & IHeq); [lia|].
    destruct (Hk n ltac:(lia)) as [Ha Hs].
    rewrite !sum_upto_S.
    rewrite (totalMs_plain t t') by (try done; lia).
    rewrite (totalMs_plain t t) by (try done; lia).
    destruct (isActive (project_at s n)) eqn:Hact.
    + specialize (Hs eq_refl).
      rewrite IHeq.
      * split; [|split; [lia|]].
        -- assert (0 ≤ sumZ ((λ k, totalMs (project_at s k) t) <$> seq 0 n))%Z; [|lia].
           rewrite <- IHeq; [done|].
           intros k Hlt. destruct (isActive (project_at s k)) eqn:Hk'; [|done].
           assert (k = n) by (apply Hone; [lia|lia|done|done]). lia.
        -- intros Hnone. rewrite Hnone in Hact by lia. done.
      * intros k Hlt. destruct (isActive (project_at s k)) eqn:Hk'; [|done].
        assert (k = n) by (apply Hone; [lia|lia|done|done]). lia.
    + split; [lia|]. split; [lia|].
      intros Hnone. rewrite IHeq by (intros; apply Hnone; lia). done.
Qed.

Lemma totalMs_stopped t p : totalMs (stopped t p) t = totalMs p t.
Proof.
  unfold stopped. destruct (isActive p) eqn:Hact; [by apply totalMs_paused|done].
Qed.

Lemma credited_step t s inp :
  wf s → time_inv t s → one_active s → (credited s t ≤ t)%Z →
  (t ≤ now inp < 2 ^ 32)%Z →
  (credited (step s inp) (now inp) ≤ now inp)%Z.
Proof.
  intros Hwf Hinv Hone Hcr Hnow.
  destruct (credited_grows t (now inp) s Hinv Hone Hnow) as [_ Hgrow].
  assert (credited (step s inp) (now inp) ≤ credited s (now inp))%Z; [|lia].
  pose proof (time_inv_mono _ _ _ Hinv (proj1 Hnow)) as [H0 Hk].
  destruct (loop_transition s inp Hwf) as [Ht _].
  unfold credited, credited_upto.
  destruct Ht as
    [raw Hw ? ? Hcnt ? Hw' ? Hf Hoth Hnew | raw ? ? ? Hs' | ? ? Hs' | uid ? ? ? Hs'
    | uid d Hno Hcard Hadm Hp Hfind Hcnt ? Hw' Hnu Hf Hlo Hhi | uid ? ? ? ? ? Hs'
    | uid d ? ? ? ? Hfind Hina Hcnt ? Hw' Hnu Hf Hat Hoth Hrest
    | uid d ? ? ? ? Hfind Hact Hcnt ? Hw' Hnu Hf Hat Hoth | uid ? ? ? ? Hfind Hs'];
    try (rewrite Hs'; apply Z.le_refl).
  - (* registration *)
    rewrite Hcnt, sum_upto_S, Hnew.
    rewrite (sum_upto_ext (λ k, totalMs (project_at s k) (now inp)))
      by (intros k Hlt; rewrite Hoth by lia; done).
    unfold totalMs. simpl. lia.
  - (* deletion *)
    destruct (find_Some _ _ _ Hfind) as (Hd & _).
    rewrite Hcnt.
    rewrite (sum_upto_delete (λ k, totalMs (project_at s k) (now inp)) _ d)
      by first [lia | intros k Hlt; by rewrite Hlo | intros k Hlt; by rewrite Hhi].
    replace (S (projectCount s - 1)) with (projectCount s) by lia.
    destruct (Hk d Hd) as [Ha Hs].
    rewrite (totalMs_plain (now inp) (now inp)) by (try done; lia).
    destruct (isActive (project_at s d)); [specialize (Hs eq_refl)|]; lia.
  - (* start *)
    destruct (find_Some _ _ _ Hfind) as (Hd & _).
    rewrite Hcnt.
    rewrite (sum_upto_ext (λ k, totalMs (project_at s k) (now inp))); [lia|].
    intros k Hlt. destruct (decide (k = d)) as [->|].
    + rewrite Hat. destruct (Hk d Hd) as [Ha _].
      unfold totalMs. rewrite Hina. simpl in Ha |- *.
      rewrite uadd_usub_exact by lia. lia.
    + rewrite Hoth by done. apply totalMs_stopped.
  - (* pause *)
    rewrite Hcnt.
    rewrite (sum_upto_ext (λ k, totalMs (project_at s k) (now inp))); [lia|].
    intros k Hlt. destruct (decide (k = d)) as [->|]; [|by rewrite Hoth].
    rewrite Hat. by apply totalMs_paused.
Qed.

Lemma credited_run inps :
  ∀ t s, wf s → time_inv t s → one_active s → (credited s t ≤ t)%Z →
         clock_ok t inps →
         time_inv (last_now t inps) (run s inps) ∧
         one_active (run s inps) ∧
         (credited (run s inps) (last_now t inps) ≤ last_now t inps)%Z.
Proof.
  induction inps as [|inp inps IH]; intros t s Hwf Hinv Hone Hcr Hclk; simpl in *.
  - done.
  - destruct Hclk as [Hnow Hclk].
    apply IH; [by apply step_wf|by eapply time_inv_step|by apply one_active_step
              |by eapply credited_step|done].
Qed.

(** X17. The device never credits more time than has passed: along a run from
    the boot state whose clock readings do not decrease and stay below
    [2^32], the totals of all registered projects at a reading [t] not before
    the last pass add up to at most [t], the time since boot. *)
Theorem credited_time_bounded (inps : list Input) (t : Z) :
  clock_ok 0 inps → (last_now 0 inps ≤ t < 2 ^ 32)%Z →
  (0 ≤ credited (run boot inps) t ≤ t)%Z.
Proof.
  intros Hclk Ht.
  destruct (credited_run inps 0 boot) as (Hinv & Hone & Hcr);
    [apply boot_wf|apply time_inv_boot|apply one_active_boot|by vm_compute|done|].
  destruct (credited_grows _ t _ Hinv Hone Ht). lia.
Qed.

Lemma credited_time_bounded_witness :
  (credited (run boot scenario_D) 5000 = 5000)%Z ∧
  (0 ≤ credited (run boot scenario_D) 5000 ≤ 5000)%Z.
Proof.
  split; [reflexivity|].
  apply (credited_time_bounded scenario_D 5000); simpl; lia.
Defined.

(** ** The admin tag *)

(** X18. The admin tag is reserved: in every state of a run from the boot
    state no registered project has it, [find] does not find it, and it is
    not the tag for which a name is awaited, because the admin card is
    taken out before a card is looked up or remembered. *)
Theorem admin_never_registered (inps : list Input) :
  let s := run boot inps in
  find s ADMIN_UID = None ∧
  (ADMIN_UID ∉ tagId <$> registry s) ∧
  (waitingForProjectName s = true → newUID s ≠ ADMIN_UID).
Proof.
  intros s.
  assert (Hinv : admin_reserved s).
  { apply run_invariant; [apply admin_reserved_boot|apply admin_reserved_step]. }
  destruct Hinv as [Hreg Hpend].
  split; [by apply find_None_intro|]. split; [|done].
  intros Hin. apply list_elem_of_lookup in Hin as [k Hk].
  rewrite list_lookup_fmap, registry_lookup in Hk.
  case_decide; [|done]. injection Hk as Hk. by apply (Hreg k).
Qed.

Lemma admin_never_registered_witness :
  newUID (run boot [scan tag_1111 0; host "A" 5; scan tag_aabb 10]) ≠ ADMIN_UID.
Proof.
  apply (proj2 (proj2 (admin_never_registered
    [scan tag_1111 0; host "A" 5; scan tag_aabb 10]))).
  reflexivity.
Defined.
